(** * Verification of timething/utils.py: alignment records and their paths

    Shallow embedding of [alignment_meta], [write_alignment],
    [read_alignment] and [alignment_filename] of [timething/utils.py].

    Python values that flow through these functions (JSON-loaded
    dictionaries, dataclass fields) are dynamically typed; they are modelled
    by [json].  Python numbers (int and float) are modelled as exact
    rationals [Q]: floating-point rounding is not modelled, so an equation
    proved here holds exactly in real arithmetic.  Python exceptions are
    the constructors of [exn]; a Python function that may raise returns a
    [result]. *)

From Stdlib Require Import String Ascii List Bool QArith Lia.
From Stdlib Require Import Qround ZArith.
Import ListNotations.
Open Scope string_scope.
Local Set Warnings "-register-all".

(** ** Python values and exceptions *)

Inductive json : Type :=
| JNull
| JBool (b : bool)
| JNum (q : Q)
| JStr (s : string)
| JList (l : list json)
| JObj (kvs : list (string * json)).

Inductive exn : Type :=
| KeyError (key : string)
| TypeError
| FileNotFoundError
| DegenerateAlignment.

Inductive result (A : Type) : Type :=
| Ok (a : A)
| Error (e : exn).
Arguments Ok {A} a.
Arguments Error {A} e.

Definition bind {A B} (m : result A) (k : A -> result B) : result B :=
  match m with
  | Ok a => k a
  | Error e => Error e
  end.

Notation "'let*' x := m 'in' k" := (bind m (fun x => k))
  (at level 200, x name, m at level 100, k at level 200).

(** [[f(x) for x in xs]] where [f] may raise: the first exception aborts. *)
Fixpoint mapM {A B} (f : A -> result B) (l : list A) : result (list B) :=
  match l with
  | [] => Ok []
  | x :: xs => let* y := f x in let* ys := mapM f xs in Ok (y :: ys)
  end.

(** A JSON object loaded by [json.load] is a dict in which a later binding
    of a key overrides an earlier one. *)
Definition dict_lookup (kvs : list (string * json)) (k : string) : option json :=
  fold_left (fun acc kv => if String.eqb k (fst kv) then Some (snd kv) else acc)
    kvs None.

(** [d[k]] for a string key [k]. *)
Definition py_getitem (d : json) (k : string) : result json :=
  match d with
  | JObj kvs =>
      match dict_lookup kvs k with
      | Some v => Ok v
      | None => Error (KeyError k)
      end
  | _ => Error TypeError
  end.

(** Keys of a dict, in first-insertion order. *)
Fixpoint dict_keys_aux (seen : list string) (kvs : list (string * json))
  : list string :=
  match kvs with
  | [] => []
  | (k, _) :: rest =>
      if existsb (String.eqb k) seen then dict_keys_aux seen rest
      else k :: dict_keys_aux (k :: seen) rest
  end.

(** [for x in v]: lists yield their items, dicts their keys, strings their
    characters; other values are not iterable. *)
Definition py_iter (v : json) : result (list json) :=
  match v with
  | JList l => Ok l
  | JObj kvs => Ok (map JStr (dict_keys_aux [] kvs))
  | JStr s => Ok (map (fun c => JStr (String c EmptyString)) (list_ascii_of_string s))
  | _ => Error TypeError
  end.

(** The numeric value of a Python number ([bool] is a subclass of [int]). *)
Definition py_num (v : json) : option Q :=
  match v with
  | JNum q => Some q
  | JBool b => Some (if b then 1 else 0)
  | _ => None
  end.

(** [v == 0] *)
Definition py_is_zero (v : json) : bool :=
  match py_num v with
  | Some q => Qeq_bool q 0
  | None => false
  end.

(** ** pathlib.PurePosixPath *)

(** A path is its anchor ("", "/" or "//") and its parts. *)
Record pypath : Type := mkPath { anchor : string; parts : list string }.

Definition slash : ascii := "/"%char.

(** [s.split("/")] *)
Fixpoint split_slash (s : string) : list string :=
  match s with
  | EmptyString => [EmptyString]
  | String c s' =>
      let r := split_slash s' in
      if Ascii.eqb c slash then EmptyString :: r
      else match r with
           | h :: t => String c h :: t
           | [] => [String c EmptyString]
           end
  end.

(** ["/".join(l)] *)
Fixpoint join_slash (l : list string) : string :=
  match l with
  | [] => EmptyString
  | [h] => h
  | h :: t => h ++ String slash (join_slash t)
  end.

(** posixpath.splitroot: the root of a path string. *)
Definition path_root (s : string) : string :=
  match s with
  | String c1 (String c2 rest) =>
      if Ascii.eqb c1 slash then
        if Ascii.eqb c2 slash then
          match rest with
          | String c3 _ => if Ascii.eqb c3 slash then "/" else "//"
          | EmptyString => "//"
          end
        else "/"
      else ""
  | String c1 EmptyString => if Ascii.eqb c1 slash then "/" else ""
  | EmptyString => ""
  end.

Definition keep_part (x : string) : bool :=
  negb (String.eqb x "") && negb (String.eqb x ".").

(** [PurePosixPath(s)]: empty and "." components are dropped. *)
Definition parse_path (s : string) : pypath :=
  mkPath (path_root s) (filter keep_part (split_slash s)).

(** [p / s]: an absolute [s] replaces [p]. *)
Definition path_div (p : pypath) (s : string) : pypath :=
  let q := parse_path s in
  if String.eqb (anchor q) "" then mkPath (anchor p) (parts p ++ parts q)
  else q.

(** [p.name] *)
Definition path_name (p : pypath) : string := last (parts p) "".

(** [p.parent] *)
Definition path_parent (p : pypath) : pypath :=
  match parts p with
  | [] => p
  | _ => mkPath (anchor p) (removelast (parts p))
  end.

(** [str(p)] *)
Definition path_str (p : pypath) : string :=
  match parts p with
  | [] => if String.eqb (anchor p) "" then "." else anchor p
  | ps => anchor p ++ join_slash ps
  end.

Definition pypath_eqb (p q : pypath) : bool :=
  String.eqb (anchor p) (anchor q)
  && (if list_eq_dec string_dec (parts p) (parts q) then true else false).

(** utils.alignment_filename: "From audio/one.mp3 to audio/one.mp3.json" *)
Definition alignment_filename (path : pypath) (id : string) : pypath :=
  let filename := path_div path id in
  path_div (path_parent filename) (path_name filename ++ ".json").

(** ** The alignment data model *)

(** [align.Segment]: a labeled time span with a score. *)
Record segment : Type := mkSegment {
  label : json;
  start : json;
  end_ : json;
  score : json
}.

(** A numpy array, only ever created empty or passed around opaquely. *)
Definition ndarray : Type := list Q.

(** [align.Alignment]. *)
Record alignment : Type := mkAlignment {
  id : json;
  log_probs : ndarray;
  recognised : json;
  trellis : ndarray;
  path : ndarray;
  chars_cleaned : list segment;
  chars : list segment;
  words_cleaned : list segment;
  words : list segment;
  n_model_frames : json;
  n_audio_samples : json;
  sampling_rate : json;
  partition_score : json
}.

(** A degenerate alignment has a zero denominator in its rescaling ratio. *)
Definition degenerate_meta (nmf sr nas : json) : bool :=
  py_is_zero nmf || py_is_zero sr || py_is_zero nas.

Definition is_degenerate (a : alignment) : bool :=
  degenerate_meta (n_model_frames a) (sampling_rate a) (n_audio_samples a).

(** Modelled from the spec: [Alignment.model_frames_to_seconds] of
    timething/align.py (not in the sources).  Section 4.1:
    [n_frames * n_audio_samples / sampling_rate / n_model_frames], a
    degenerate alignment being rejected with [DegenerateAlignment] before
    rescaling; non-numeric operands raise [TypeError] as Python does. *)
Definition model_frames_to_seconds (a : alignment) (x : json) : result json :=
  if is_degenerate a then Error DegenerateAlignment else
  match py_num x, py_num (n_audio_samples a), py_num (sampling_rate a),
        py_num (n_model_frames a) with
  | Some f, Some n, Some r, Some m => Ok (JNum (f * n / r / m))
  | _, _, _, _ => Error TypeError
  end.

(** Modelled from the spec: [Alignment.seconds_to_model_frames] of
    timething/align.py (not in the sources).  Section 4.1:
    [n_seconds * n_model_frames * sampling_rate / n_audio_samples], with the
    same rejection of degenerate alignments. *)
Definition seconds_to_model_frames (a : alignment) (x : json) : result json :=
  if is_degenerate a then Error DegenerateAlignment else
  match py_num x, py_num (n_model_frames a), py_num (sampling_rate a),
        py_num (n_audio_samples a) with
  | Some s, Some m, Some r, Some n => Ok (JNum (s * m * r / n))
  | _, _, _, _ => Error TypeError
  end.

(** ** Encode: utils.alignment_meta *)

(** [alignments(segments)] inside [alignment_meta]. *)
Definition meta_segment (a : alignment) (sg : segment) : result json :=
  let* st := model_frames_to_seconds a (start sg) in
  let* en := model_frames_to_seconds a (end_ sg) in
  Ok (JObj [("label", label sg); ("start", st); ("end", en);
            ("score", score sg)]).

Definition meta_alignments (a : alignment) (segs : list segment)
  : result json :=
  let* l := mapM (meta_segment a) segs in Ok (JList l).

Definition alignment_meta (a : alignment) : result json :=
  let* c := meta_alignments a (chars a) in
  let* cc := meta_alignments a (chars_cleaned a) in
  let* w := meta_alignments a (words a) in
  let* wc := meta_alignments a (words_cleaned a) in
  Ok (JObj [("id", id a);
            ("n_model_frames", n_model_frames a);
            ("n_audio_samples", n_audio_samples a);
            ("sampling_rate", sampling_rate a);
            ("partition_score", partition_score a);
            ("recognised", recognised a);
            ("chars", c);
            ("chars_cleaned", cc);
            ("words", w);
            ("words_cleaned", wc)]).

(** ** Decode: utils.read_alignment *)

(** [dict_to_segment] inside [read_alignment]: keyword arguments are
    evaluated in the order start, end, label, score. *)
Definition dict_to_segment (a : alignment) (d : json) : result segment :=
  let* s := py_getitem d "start" in
  let* s' := seconds_to_model_frames a s in
  let* e := py_getitem d "end" in
  let* e' := seconds_to_model_frames a e in
  let* l := py_getitem d "label" in
  let* sc := py_getitem d "score" in
  Ok (mkSegment l s' e' sc).

(** [[dict_to_segment(d) for d in alignment_dict[key]]] *)
Definition decode_segments (a : alignment) (alignment_dict : json) (key : string)
  : result (list segment) :=
  let* v := py_getitem alignment_dict key in
  let* ds := py_iter v in
  mapM (dict_to_segment a) ds.

(** The body of [read_alignment] after [json.load].  The local alignment
    object is filled in field by field and only returned at the end. *)
Definition decode_record (alignment_dict : json) : result alignment :=
  let* i := py_getitem alignment_dict "id" in
  let* r := py_getitem alignment_dict "recognised" in
  let* nmf := py_getitem alignment_dict "n_model_frames" in
  let* nas := py_getitem alignment_dict "n_audio_samples" in
  let* sr := py_getitem alignment_dict "sampling_rate" in
  let* ps := py_getitem alignment_dict "partition_score" in
  let a := mkAlignment i [] r [] [] [] [] [] [] nmf nas sr ps in
  let* cc := decode_segments a alignment_dict "chars_cleaned" in
  let* c := decode_segments a alignment_dict "chars" in
  let* wc := decode_segments a alignment_dict "words_cleaned" in
  let* w := decode_segments a alignment_dict "words" in
  Ok (mkAlignment i [] r [] [] cc c wc w nmf nas sr ps).

(** ** Storage *)

(** The files under the alignments directory, by path.  A file holds the
    JSON value that [json.dumps] wrote; [json.load] of that text gives the
    value back (finite floats are printed with [repr], which round-trips). *)
Definition store : Type := pypath -> option json.

Definition store_write (fs : store) (p : pypath) (v : json) : store :=
  fun q => if pypath_eqb p q then Some v else fs q.

(** utils.write_alignment: the metadata is computed before anything is
    written. *)
Definition write_alignment (fs : store) (output_path : pypath) (i : string)
  (a : alignment) : result store :=
  let* meta := alignment_meta a in
  Ok (store_write fs (alignment_filename output_path i) meta).

(** utils.read_alignment *)
Definition read_alignment (fs : store) (alignments_dir : pypath)
  (alignment_id : string) : result alignment :=
  match fs (alignment_filename alignments_dir alignment_id) with
  | Some alignment_dict => decode_record alignment_dict
  | None => Error FileNotFoundError
  end.

(** ** Path-level facts *)

(** An alignment id in normal form: a relative path whose components are
    all non-empty and different from ".". *)
Definition normal_id (s : string) : bool :=
  String.eqb (path_root s) "" && forallb keep_part (split_slash s).

Fixpoint has_slash (s : string) : bool :=
  match s with
  | EmptyString => false
  | String c s' => Ascii.eqb c slash || has_slash s'
  end.

(** ** Predicates and spec-side definitions used by the statements *)

Definition num_b (v : json) : bool :=
  match py_num v with Some _ => true | None => false end.

(** The numeric value of a number, 0 for anything else. *)
Definition num_of (v : json) : Q :=
  match py_num v with Some q => q | None => 0 end.

Definition seg_numeric (sg : segment) : bool :=
  num_b (start sg) && num_b (end_ sg).

(** The rescaling inputs of an alignment are Python numbers. *)
Definition well_typed (a : alignment) : bool :=
  num_b (n_model_frames a) && num_b (n_audio_samples a)
  && num_b (sampling_rate a)
  && forallb seg_numeric (chars a) && forallb seg_numeric (chars_cleaned a)
  && forallb seg_numeric (words a) && forallb seg_numeric (words_cleaned a).

(** Section 4.1: frames_to_seconds, by the spec's formula. *)
Definition frames_to_seconds_spec (a : alignment) (x : json) : json :=
  JNum (num_of x * num_of (n_audio_samples a) / num_of (sampling_rate a)
        / num_of (n_model_frames a)).

(** Section 4.2: the record entry of one segment. *)
Definition encoded_segment_spec (a : alignment) (sg : segment) : json :=
  JObj [("label", label sg); ("start", frames_to_seconds_spec a (start sg));
        ("end", frames_to_seconds_spec a (end_ sg)); ("score", score sg)].

(** Section 4.2: the record of an alignment. *)
Definition encoded_spec (a : alignment) : json :=
  JObj [("id", id a);
        ("n_model_frames", n_model_frames a);
        ("n_audio_samples", n_audio_samples a);
        ("sampling_rate", sampling_rate a);
        ("partition_score", partition_score a);
        ("recognised", recognised a);
        ("chars", JList (map (encoded_segment_spec a) (chars a)));
        ("chars_cleaned", JList (map (encoded_segment_spec a) (chars_cleaned a)));
        ("words", JList (map (encoded_segment_spec a) (words a)));
        ("words_cleaned", JList (map (encoded_segment_spec a) (words_cleaned a)))].

(** Two numbers with equal values. *)
Definition num_eq (x y : json) : Prop :=
  exists qx qy, py_num x = Some qx /\ py_num y = Some qy /\ (qx == qy)%Q.

(** A decoded segment equals the original one: label and score exactly,
    start and end as numbers. *)
Definition seg_roundtrip (s t : segment) : Prop :=
  label t = label s /\ score t = score s /\
  num_eq (start t) (start s) /\ num_eq (end_ t) (end_ s).

Definition scalar_keys : list string :=
  ["id"; "recognised"; "n_model_frames"; "n_audio_samples"; "sampling_rate";
   "partition_score"].

Definition collection_keys : list string :=
  ["chars_cleaned"; "chars"; "words_cleaned"; "words"].

Definition segment_keys : list string := ["start"; "end"; "label"; "score"].

(** A segment object of a conforming record. *)
Definition seg_conforms (d : json) : Prop :=
  (forall k, In k ["label"; "score"] -> exists v, py_getitem d k = Ok v) /\
  (forall k, In k ["start"; "end"] ->
     exists v q, py_getitem d k = Ok v /\ py_num v = Some q).

(** Section 4.3: [t] is the segment rebuilt from the object [d] by label
    and score copied and seconds_to_frames of start and end. *)
Definition seg_decoded (m r n : Q) (d : json) (t : segment) : Prop :=
  py_getitem d "label" = Ok (label t) /\ py_getitem d "score" = Ok (score t) /\
  (exists v q, py_getitem d "start" = Ok v /\ py_num v = Some q /\
     start t = JNum (q * m * r / n)) /\
  (exists v q, py_getitem d "end" = Ok v /\ py_num v = Some q /\
     end_ t = JNum (q * m * r / n)).

(** Segment objects that agree on the four segment keys. *)
Definition seg_agree (d1 d2 : json) : Prop :=
  forall k, In k segment_keys -> py_getitem d1 k = py_getitem d2 k.

Definition iter_agree (x y : json) : Prop :=
  match py_iter x, py_iter y with
  | Ok l1, Ok l2 => Forall2 seg_agree l1 l2
  | Error e1, Error e2 => e1 = e2
  | _, _ => False
  end.

Definition coll_agree (x y : result json) : Prop :=
  match x, y with
  | Ok v1, Ok v2 => iter_agree v1 v2
  | Error e1, Error e2 => e1 = e2
  | _, _ => False
  end.

(** Two records agreeing on the values of all documented keys. *)
Definition records_agree (r1 r2 : json) : Prop :=
  (forall k, In k scalar_keys -> py_getitem r1 k = py_getitem r2 k) /\
  (forall k, In k collection_keys -> coll_agree (py_getitem r1 k) (py_getitem r2 k)).

(** The alignment [a] has every field set from the record [r]. *)
Definition fully_populated (r : json) (a : alignment) : Prop :=
  py_getitem r "id" = Ok (id a) /\ py_getitem r "recognised" = Ok (recognised a) /\
  py_getitem r "n_model_frames" = Ok (n_model_frames a) /\
  py_getitem r "n_audio_samples" = Ok (n_audio_samples a) /\
  py_getitem r "sampling_rate" = Ok (sampling_rate a) /\
  py_getitem r "partition_score" = Ok (partition_score a) /\
  log_probs a = [] /\ trellis a = [] /\ path a = [] /\
  decode_segments a r "chars_cleaned" = Ok (chars_cleaned a) /\
  decode_segments a r "chars" = Ok (chars a) /\
  decode_segments a r "words_cleaned" = Ok (words_cleaned a) /\
  decode_segments a r "words" = Ok (words a).

Definition has_segments (a : alignment) : bool :=
  negb (forallb (fun l => match l with [] => true | _ => false end)
          [chars a; chars_cleaned a; words a; words_cleaned a]).

(** The shape of a record as [read_alignment] reads it: the scalar keys
    present, the four collections lists of segment objects. *)
Definition record_shape (r nmf nas sr : json) (dcc dc dwc dw : list json) : Prop :=
  (forall k, In k ["id"; "recognised"; "partition_score"] ->
     exists v, py_getitem r k = Ok v) /\
  py_getitem r "n_model_frames" = Ok nmf /\
  py_getitem r "n_audio_samples" = Ok nas /\
  py_getitem r "sampling_rate" = Ok sr /\
  py_getitem r "chars_cleaned" = Ok (JList dcc) /\
  py_getitem r "chars" = Ok (JList dc) /\
  py_getitem r "words_cleaned" = Ok (JList dwc) /\
  py_getitem r "words" = Ok (JList dw) /\
  Forall seg_conforms (dcc ++ dc ++ dwc ++ dw).

(** The numeric field [k] of a record entry. *)
Definition seg_field (o : json) (k : string) : Q :=
  match py_getitem o k with Ok v => num_of v | Error _ => 0 end.

(** ** Concrete inputs *)

Definition seg (l : string) (s e : Q) (sc : Q) : segment :=
  mkSegment (JStr l) (JNum s) (JNum e) (JNum sc).

(** Section 8, item 5: words [a, 0, 2, 0.9] and [b, 2, 5, 0.8] in frame
    units, 10 model frames, 160000 samples at 16000 Hz. *)
Definition ex_words : list segment := [seg "a" 0 2 (9#10); seg "b" 2 5 (8#10)].

Definition ex_alignment : alignment :=
  mkAlignment (JStr "audio/one.mp3") [1; 2] (JStr "ab") [3] [4]
    [seg "a" 0 1 (9#10); seg "b" 2 4 (7#10)] [seg "a" 0 1 (9#10)]
    ex_words [seg "ab" 0 5 (85#100)]
    (JNum 10) (JNum 160000) (JNum 16000) (JNum (-3#2)).

(** A degenerate alignment (no model frames) with no segments. *)
Definition ex_degenerate_empty : alignment :=
  mkAlignment (JStr "empty.mp3") [] (JStr "") [] [] [] [] [] []
    (JNum 0) (JNum 16000) (JNum 16000) (JNum 0).

Definition empty_store : store := fun _ => None.

Definition ex_segment_object : json :=
  JObj [("label", JStr "a"); ("start", JNum 0); ("end", JNum (1#10));
        ("score", JNum (9#10))].

(** A record with [n_model_frames = 0] and one character segment. *)
Definition ex_degenerate_record : json :=
  JObj [("id", JStr "x.mp3"); ("recognised", JStr "a");
        ("n_model_frames", JNum 0); ("n_audio_samples", JNum 16000);
        ("sampling_rate", JNum 16000); ("partition_score", JNum 0);
        ("chars_cleaned", JList []); ("chars", JList [ex_segment_object]);
        ("words_cleaned", JList []); ("words", JList [])].

(** A conforming record: 10 model frames, 16000 samples at 16000 Hz. *)
Definition ex_record_ok : json :=
  JObj [("id", JStr "x.mp3"); ("recognised", JStr "a");
        ("n_model_frames", JNum 10); ("n_audio_samples", JNum 16000);
        ("sampling_rate", JNum 16000); ("partition_score", JNum 0);
        ("chars_cleaned", JList []); ("chars", JList [ex_segment_object]);
        ("words_cleaned", JList []); ("words", JList [ex_segment_object])].

(** A record without "sampling_rate". *)
Definition ex_record_no_rate : json :=
  JObj [("id", JStr "x.mp3"); ("recognised", JStr "a");
        ("n_model_frames", JNum 10); ("n_audio_samples", JNum 16000);
        ("partition_score", JNum 0);
        ("chars_cleaned", JList []); ("chars", JList [ex_segment_object]);
        ("words_cleaned", JList []); ("words", JList [])].

(** ** utils.load_config *)

(** Python truthiness of a value. *)
Definition py_truthy (v : json) : bool :=
  match v with
  | JNull => false
  | JBool b => b
  | JNum q => negb (Qeq_bool q 0)
  | JStr s => negb (String.eqb s "")
  | JList l => match l with [] => false | _ => true end
  | JObj kvs => match kvs with [] => false | _ => true end
  end.

(** The keyword arguments of the [align.Config(...)] call. *)
Record config : Type := mkConfig {
  hugging_model : json;
  hugging_pin : json;
  config_sampling_rate : json;
  language : json;
  k_shingles : json;
  local_files_only : json;
  cache_dir : json
}.

Section LoadConfig.

(** [align.CACHE_DIR_DEFAULT] *)
Variable CACHE_DIR_DEFAULT : json.

(** [load_config], from the parsed models.yaml [cfg] on: keyword
    arguments are evaluated in source order. The [cache_dir] argument is
    None or a string. *)
Definition load_config (cfg : json) (model : string) (k_shingles_arg : json)
  (local_files_only_arg : json) (cache_dir_arg : json) : result config :=
  let* e1 := py_getitem cfg model in
  let* hm := py_getitem e1 "model" in
  let* e2 := py_getitem cfg model in
  let* hp := py_getitem e2 "pin" in
  let* e3 := py_getitem cfg model in
  let* sr := py_getitem e3 "sampling_rate" in
  let* e4 := py_getitem cfg model in
  let* lg := py_getitem e4 "language" in
  Ok (mkConfig hm hp sr lg k_shingles_arg local_files_only_arg
        (if py_truthy cache_dir_arg then cache_dir_arg else CACHE_DIR_DEFAULT)).

End LoadConfig.

(** ** The slice arithmetic of utils.load_slice *)

(** [int(x)] of a float: truncation toward zero. *)
Definition py_int (q : Q) : Z :=
  if Qle_bool 0 q then Qfloor q else (- Qfloor (- q))%Z.

(** The [frame_offset] and [num_frames] that [load_slice] passes to
    [torchaudio.load], from [info.sample_rate], [info.num_frames] and the
    number of loaded samples; [None] is the ZeroDivisionError raised by a
    division by zero. *)
Definition load_slice_window (sample_rate num_frames num_samples : Z)
  (start_seconds end_seconds : Q) : option (Z * Z) :=
  if (sample_rate =? 0)%Z then None else
  let n_seconds := inject_Z num_samples / inject_Z sample_rate in
  if (num_frames =? 0)%Z then None else
  let seconds_per_frame := n_seconds / inject_Z num_frames in
  if Qeq_bool seconds_per_frame 0 then None else
  let start := py_int (start_seconds / seconds_per_frame) in
  let end_ := py_int (end_seconds / seconds_per_frame) in
  Some (start, (end_ - start)%Z).

(** A path whose parts hold no "/", as every parsed path. *)
Definition slash_free (p : pypath) : Prop :=
  forall x, In x (parts p) -> has_slash x = false.

(** An object written by [alignment_meta] for the segment object [d] of a
    record: exactly the keys label, start, end and score, label and score
    those of [d], start and end numerically equal to those of [d]. *)
Definition seg_reencoded (d o : json) : Prop :=
  exists l s e sc, o = JObj [("label", l); ("start", s); ("end", e); ("score", sc)] /\
    py_getitem d "label" = Ok l /\ py_getitem d "score" = Ok sc /\
    (exists v, py_getitem d "start" = Ok v /\ num_eq s v) /\
    (exists v, py_getitem d "end" = Ok v /\ num_eq e v).

(** A tier of (start, end) spans in which every span is non-empty and
    ends where or before the next one starts. *)
Fixpoint tier_ordered (l : list (Q * Q)) : Prop :=
  match l with
  | [] => True
  | p :: rest =>
      fst p <= snd p /\
      match rest with [] => True | p' :: _ => snd p <= fst p' end /\
      tier_ordered rest
  end.

Definition seg_span (sg : segment) : Q * Q := (num_of (start sg), num_of (end_ sg)).

Definition obj_span (o : json) : Q * Q := (seg_field o "start", seg_field o "end").

(** The first of the keys [ks] that [d[k]] does not find. *)
Fixpoint first_missing (d : json) (ks : list string) : option string :=
  match ks with
  | [] => None
  | k :: ks' => match py_getitem d k with
                | Ok _ => first_missing d ks'
                | Error _ => Some k
                end
  end.


(** A parsed models.yaml with one complete entry and one without a pin. *)
Definition ex_models_cfg : json :=
  JObj [("english", JObj [("model", JStr "org/model-en"); ("pin", JStr "abc123");
                          ("sampling_rate", JNum 16000); ("language", JStr "english")]);
        ("german", JObj [("model", JStr "org/model-de");
                         ("sampling_rate", JNum 16000); ("language", JStr "german")])].

(** * Theorems *)

(** Closes goals [exists v .., py_getitem o k = Ok v /\ ..] on concrete
    objects, for every [k] of a listed set of keys. *)
Ltac solve_keys :=
  intros ? Hk; simpl in Hk;
  repeat (destruct Hk as [<-|Hk]; [repeat eexists; reflexivity|]);
  contradiction.

Section PathLemmas.

Lemma split_slash_nonnil (s : string) : split_slash s <> [].
Proof.
  induction s as [|c s IH]; simpl; [discriminate|].
  destruct (Ascii.eqb c slash); [discriminate|].
  destruct (split_slash s); discriminate.
Qed.

Lemma join_split_slash (s : string) : join_slash (split_slash s) = s.
Proof.
  induction s as [|c s IH]; [reflexivity|].
  simpl. destruct (Ascii.eqb c slash) eqn:Ec.
  - apply Ascii.eqb_eq in Ec. subst c.
    pose proof (split_slash_nonnil s) as Hn.
    destruct (split_slash s) as [|h t] eqn:Es; [congruence|].
    simpl. rewrite <- IH. reflexivity.
  - pose proof (split_slash_nonnil s) as Hn.
    destruct (split_slash s) as [|h t] eqn:Es; [congruence|].
    destruct t as [|h' t']; simpl in *; rewrite <- IH; reflexivity.
Qed.

Lemma split_slash_no_slash (s : string) :
  has_slash s = false -> split_slash s = [s].
Proof.
  induction s as [|c s IH]; simpl; [reflexivity|].
  intros H. apply orb_false_iff in H as [Hc Hs].
  rewrite Hc, (IH Hs). reflexivity.
Qed.

Lemma has_slash_append (a b : string) :
  has_slash (a ++ b) = has_slash a || has_slash b.
Proof.
  induction a as [|c a IH]; simpl; [reflexivity|].
  rewrite IH, orb_assoc. reflexivity.
Qed.

Lemma length_append (a b : string) :
  (String.length (a ++ b) = String.length a + String.length b)%nat.
Proof. induction a; simpl; auto. Qed.

Lemma append_cancel_r (a b c : string) : a ++ c = b ++ c -> a = b.
Proof.
  revert b. induction a as [|x a IH]; intros [|y b] H; simpl in *.
  - reflexivity.
  - apply (f_equal String.length) in H. simpl in H.
    rewrite length_append in H. lia.
  - apply (f_equal String.length) in H. simpl in H.
    rewrite length_append in H. lia.
  - injection H as -> H. f_equal. apply IH, H.
Qed.

Lemma path_root_non_slash (c : ascii) (s : string) :
  Ascii.eqb c slash = false -> path_root (String c s) = "".
Proof. intros H. destruct s; simpl; rewrite H; reflexivity. Qed.

(** The final component renamed with ".json" is a single relative part. *)
Lemma parse_json_name (x : string) :
  has_slash x = false ->
  parse_path (x ++ ".json") = mkPath "" [x ++ ".json"].
Proof.
  intros Hx. unfold parse_path.
  rewrite split_slash_no_slash by (rewrite has_slash_append, Hx; reflexivity).
  assert (Hr : path_root (x ++ ".json") = "").
  { destruct x as [|c x]; [reflexivity|].
    simpl in Hx. apply orb_false_iff in Hx as [Hc _].
    simpl. apply path_root_non_slash, Hc. }
  rewrite Hr. simpl.
  assert (Hk : keep_part (x ++ ".json") = true).
  { unfold keep_part.
    destruct (String.eqb_spec (x ++ ".json") "") as [E|_];
      [apply (f_equal String.length) in E; rewrite length_append in E;
       simpl in E; lia|].
    destruct (String.eqb_spec (x ++ ".json") ".") as [E|_];
      [apply (f_equal String.length) in E; rewrite length_append in E;
       simpl in E; lia|].
    reflexivity. }
  rewrite Hk. reflexivity.
Qed.

Lemma forallb_filter_id {A} (f : A -> bool) (l : list A) :
  forallb f l = true -> filter f l = l.
Proof.
  induction l as [|x l IH]; simpl; [reflexivity|].
  intros H. apply andb_true_iff in H as [Hx Hl]. rewrite Hx, IH; auto.
Qed.

Lemma in_split_has_no_slash (s x : string) :
  In x (split_slash s) -> has_slash x = false.
Proof.
  revert x. induction s as [|c s IH]; simpl; intros x Hin.
  - destruct Hin as [<-|[]]; reflexivity.
  - destruct (Ascii.eqb c slash) eqn:Ec.
    + destruct Hin as [<-|Hin]; [reflexivity|]. apply IH, Hin.
    + destruct (split_slash s) as [|h t] eqn:Es.
      * destruct Hin as [<-|[]]. simpl. rewrite Ec. reflexivity.
      * destruct Hin as [<-|Hin].
        -- simpl. rewrite Ec. apply IH. left. reflexivity.
        -- apply IH. right. exact Hin.
Qed.

Lemma last_app_nonnil {A} (l l' : list A) (d : A) :
  l' <> [] -> last (l ++ l') d = last l' d.
Proof.
  intros H. induction l as [|x l IH]; [reflexivity|].
  simpl. rewrite IH. destruct (l ++ l')%list eqn:E; [|reflexivity].
  apply app_eq_nil in E as [_ E]. contradiction.
Qed.

(** For an id in normal form, the location is the root followed by the
    id's components, the last one suffixed with ".json". *)
Lemma alignment_filename_normal (root : pypath) (s : string) :
  normal_id s = true ->
  alignment_filename root s =
  mkPath (anchor root)
    ((parts root ++ removelast (split_slash s))
       ++ [last (split_slash s) "" ++ ".json"]).
Proof.
  unfold normal_id. intros H. apply andb_true_iff in H as [Hr Hk].
  apply String.eqb_eq in Hr.
  pose proof (split_slash_nonnil s) as Hn.
  assert (Hp : parse_path s = mkPath "" (split_slash s)).
  { unfold parse_path. rewrite Hr, forallb_filter_id by exact Hk. reflexivity. }
  assert (Hd : path_div root s = mkPath (anchor root) (parts root ++ split_slash s)).
  { unfold path_div. rewrite Hp. reflexivity. }
  unfold alignment_filename. rewrite Hd.
  unfold path_parent, path_name. simpl.
  destruct (parts root ++ split_slash s)%list eqn:E.
  { apply app_eq_nil in E as [_ E]. contradiction. }
  rewrite <- E. rewrite removelast_app by exact Hn.
  rewrite last_app_nonnil by exact Hn.
  unfold path_div. rewrite parse_json_name.
  - reflexivity.
  - apply (in_split_has_no_slash s). destruct (split_slash s) as [|h t]; [congruence|].
    clear. revert h. induction t as [|h' t IH]; intros h; simpl; [left; reflexivity|].
    right. apply IH.
Qed.

End PathLemmas.

(** ** C5: the identifier-to-location mapping *)

(** C5 (counterexample): the mapping is not injective per root: under
    root "out", the distinct ids "a" and "./a" (also "a/") are mapped to the
    same location "out/a.json", because pathlib drops "." and empty
    components. *)
Lemma alignment_filename_collision :
  "a" <> "./a" /\
  alignment_filename (parse_path "out") "a"
  = alignment_filename (parse_path "out") "./a" /\
  alignment_filename (parse_path "out") "a"
  = alignment_filename (parse_path "out") "a/" /\
  path_str (alignment_filename (parse_path "out") "./a") = "out/a.json".
Proof. repeat split; [discriminate | reflexivity ..]. Qed.

(** C5 (amended): [alignment_filename] maps id "audio/one.mp3" under root
    "out" to "out/audio/one.mp3.json"; for every root it appends ".json" to
    the final component of an id in normal form, keeping the root and the
    other components unchanged, and it is injective on ids in normal form. *)
Theorem alignment_filename_injective_normal :
  path_str (alignment_filename (parse_path "out") "audio/one.mp3")
    = "out/audio/one.mp3.json" /\
  (forall root s, normal_id s = true ->
     alignment_filename root s =
     mkPath (anchor root)
       ((parts root ++ removelast (split_slash s))
          ++ [last (split_slash s) "" ++ ".json"])) /\
  (forall root s1 s2, normal_id s1 = true -> normal_id s2 = true ->
     alignment_filename root s1 = alignment_filename root s2 -> s1 = s2).
Proof.
  split; [reflexivity|]. split; [exact alignment_filename_normal|].
  intros root s1 s2 H1 H2 Heq.
  rewrite (alignment_filename_normal root s1 H1),
          (alignment_filename_normal root s2 H2) in Heq.
  injection Heq as Heq.
  apply app_inj_tail in Heq as [Hpre Hlast].
  apply app_inv_head in Hpre.
  apply append_cancel_r in Hlast.
  rewrite <- (join_split_slash s1), <- (join_split_slash s2).
  rewrite (app_removelast_last "" (split_slash_nonnil s1)),
          (app_removelast_last "" (split_slash_nonnil s2)).
  rewrite Hpre, Hlast. reflexivity.
Qed.

(** Witness of C5 (amended): "audio/one.mp3" and "audio/two.mp3" are in
    normal form and map to different locations under "out". *)
Lemma alignment_filename_injective_normal_witness :
  normal_id "audio/one.mp3" = true /\ normal_id "audio/two.mp3" = true /\
  alignment_filename (parse_path "out") "audio/one.mp3" =
  mkPath "" ["out"; "audio"; "one.mp3.json"] /\
  ("audio/one.mp3" <> "audio/two.mp3" ->
   alignment_filename (parse_path "out") "audio/one.mp3" <>
   alignment_filename (parse_path "out") "audio/two.mp3").
Proof.
  split; [reflexivity|]. split; [reflexivity|]. split.
  - apply (proj1 (proj2 alignment_filename_injective_normal)). reflexivity.
  - intros Hne Heq. apply Hne.
    apply (proj2 (proj2 alignment_filename_injective_normal)
             (parse_path "out")); [reflexivity | reflexivity | exact Heq].
Defined.

(** ** Rescaling and encoding lemmas *)

Section Codec.

Lemma num_b_some (v : json) : num_b v = true -> py_num v = Some (num_of v).
Proof. unfold num_b, num_of. destruct (py_num v); congruence. Qed.

Lemma not_zero_of (v : json) (q : Q) :
  py_is_zero v = false -> py_num v = Some q -> ~ (q == 0)%Q.
Proof.
  unfold py_is_zero. intros Hz Hq. rewrite Hq in Hz.
  intros E. apply Qeq_bool_iff in E. congruence.
Qed.

Lemma degenerate_false (a : alignment) :
  is_degenerate a = false ->
  py_is_zero (n_model_frames a) = false /\ py_is_zero (sampling_rate a) = false
  /\ py_is_zero (n_audio_samples a) = false.
Proof.
  unfold is_degenerate, degenerate_meta. intros H.
  apply orb_false_iff in H as [H H3]. apply orb_false_iff in H as [H1 H2].
  auto.
Qed.

Lemma rescale_inverse_Q (f n r m : Q) :
  ~ (n == 0)%Q -> ~ (r == 0)%Q -> ~ (m == 0)%Q ->
  (f * n / r / m * m * r / n == f)%Q.
Proof. intros Hn Hr Hm. field. auto. Qed.

Lemma frames_to_seconds_ok (a : alignment) (x : json) :
  is_degenerate a = false ->
  num_b (n_model_frames a) = true -> num_b (n_audio_samples a) = true ->
  num_b (sampling_rate a) = true -> num_b x = true ->
  model_frames_to_seconds a x = Ok (frames_to_seconds_spec a x).
Proof.
  intros Hd Hm Hn Hr Hx. unfold model_frames_to_seconds.
  rewrite Hd, (num_b_some _ Hm), (num_b_some _ Hn), (num_b_some _ Hr),
    (num_b_some _ Hx).
  reflexivity.
Qed.

Lemma meta_alignments_ok (a : alignment) (segs : list segment) :
  is_degenerate a = false ->
  num_b (n_model_frames a) = true -> num_b (n_audio_samples a) = true ->
  num_b (sampling_rate a) = true -> forallb seg_numeric segs = true ->
  meta_alignments a segs = Ok (JList (map (encoded_segment_spec a) segs)).
Proof.
  intros Hd Hm Hn Hr Hs. unfold meta_alignments.
  assert (H : mapM (meta_segment a) segs = Ok (map (encoded_segment_spec a) segs)).
  { induction segs as [|sg segs IH]; [reflexivity|].
    simpl in Hs. apply andb_true_iff in Hs as [Hsg Hs].
    unfold seg_numeric in Hsg. apply andb_true_iff in Hsg as [Hst Hen].
    simpl. rewrite (IH Hs). unfold meta_segment.
    rewrite (frames_to_seconds_ok a _ Hd Hm Hn Hr Hst).
    rewrite (frames_to_seconds_ok a _ Hd Hm Hn Hr Hen). reflexivity. }
  rewrite H. reflexivity.
Qed.

Lemma alignment_meta_ok (a : alignment) :
  is_degenerate a = false -> well_typed a = true ->
  alignment_meta a = Ok (encoded_spec a).
Proof.
  intros Hd Hw. unfold well_typed in Hw.
  repeat rewrite andb_true_iff in Hw.
  destruct Hw as [[[[[[Hm Hn] Hr] Hc] Hcc] Hw] Hwc].
  unfold alignment_meta.
  rewrite (meta_alignments_ok a _ Hd Hm Hn Hr Hc),
          (meta_alignments_ok a _ Hd Hm Hn Hr Hcc),
          (meta_alignments_ok a _ Hd Hm Hn Hr Hw),
          (meta_alignments_ok a _ Hd Hm Hn Hr Hwc).
  reflexivity.
Qed.

Lemma seconds_to_frames_num (b : alignment) (q : Q) :
  is_degenerate b = false ->
  num_b (n_model_frames b) = true -> num_b (n_audio_samples b) = true ->
  num_b (sampling_rate b) = true ->
  seconds_to_model_frames b (JNum q) =
  Ok (JNum (q * num_of (n_model_frames b) * num_of (sampling_rate b)
            / num_of (n_audio_samples b))).
Proof.
  intros Hd Hm Hn Hr. unfold seconds_to_model_frames.
  rewrite Hd, (num_b_some _ Hm), (num_b_some _ Hn), (num_b_some _ Hr).
  reflexivity.
Qed.

Lemma decode_encoded_segments (a b : alignment) (segs : list segment) :
  n_model_frames b = n_model_frames a -> n_audio_samples b = n_audio_samples a ->
  sampling_rate b = sampling_rate a ->
  is_degenerate a = false ->
  num_b (n_model_frames a) = true -> num_b (n_audio_samples a) = true ->
  num_b (sampling_rate a) = true -> forallb seg_numeric segs = true ->
  exists ts, mapM (dict_to_segment b) (map (encoded_segment_spec a) segs) = Ok ts
             /\ Forall2 seg_roundtrip segs ts.
Proof.
  intros Em En Er Hd Hm Hn Hr Hs.
  assert (Hdb : is_degenerate b = false).
  { unfold is_degenerate, degenerate_meta. rewrite Em, En, Er. exact Hd. }
  destruct (degenerate_false a Hd) as [Zm [Zr Zn]].
  pose proof (not_zero_of _ _ Zm (num_b_some _ Hm)) as Nm.
  pose proof (not_zero_of _ _ Zr (num_b_some _ Hr)) as Nr.
  pose proof (not_zero_of _ _ Zn (num_b_some _ Hn)) as Nn.
  induction segs as [|sg segs IH].
  { exists []. split; [reflexivity | constructor]. }
  simpl in Hs. apply andb_true_iff in Hs as [Hsg Hs].
  destruct (IH Hs) as [ts [Hts Hall]].
  unfold seg_numeric in Hsg. apply andb_true_iff in Hsg as [Hst Hen].
  simpl. rewrite Hts.
  unfold dict_to_segment, encoded_segment_spec, frames_to_seconds_spec. simpl.
  rewrite <- Em in Hm; rewrite <- En in Hn; rewrite <- Er in Hr.
  rewrite !seconds_to_frames_num by assumption.
  simpl. eexists. split; [reflexivity|].
  constructor; [|exact Hall].
  unfold seg_roundtrip; simpl.
  rewrite Em, En, Er.
  split; [reflexivity|]. split; [reflexivity|].
  split; eexists _, _; (split; [reflexivity|]);
    [split; [apply num_b_some, Hst|] | split; [apply num_b_some, Hen|]];
    apply rescale_inverse_Q; assumption.
Qed.

Lemma decode_encoded (a : alignment) :
  is_degenerate a = false -> well_typed a = true ->
  exists b, decode_record (encoded_spec a) = Ok b /\
    id b = id a /\ recognised b = recognised a /\
    n_model_frames b = n_model_frames a /\ n_audio_samples b = n_audio_samples a /\
    sampling_rate b = sampling_rate a /\ partition_score b = partition_score a /\
    log_probs b = [] /\ trellis b = [] /\ path b = [] /\
    Forall2 seg_roundtrip (chars a) (chars b) /\
    Forall2 seg_roundtrip (chars_cleaned a) (chars_cleaned b) /\
    Forall2 seg_roundtrip (words a) (words b) /\
    Forall2 seg_roundtrip (words_cleaned a) (words_cleaned b).
Proof.
  intros Hd Hw. unfold well_typed in Hw.
  repeat rewrite andb_true_iff in Hw.
  destruct Hw as [[[[[[Hm Hn] Hr] Hc] Hcc] Hwo] Hwc].
  set (a0 := mkAlignment (id a) [] (recognised a) [] [] [] [] [] []
               (n_model_frames a) (n_audio_samples a) (sampling_rate a)
               (partition_score a)).
  destruct (decode_encoded_segments a a0 _ eq_refl eq_refl eq_refl Hd Hm Hn Hr Hc)
    as [c [Ec Fc]].
  destruct (decode_encoded_segments a a0 _ eq_refl eq_refl eq_refl Hd Hm Hn Hr Hcc)
    as [cc [Ecc Fcc]].
  destruct (decode_encoded_segments a a0 _ eq_refl eq_refl eq_refl Hd Hm Hn Hr Hwo)
    as [w [Ew Fw]].
  destruct (decode_encoded_segments a a0 _ eq_refl eq_refl eq_refl Hd Hm Hn Hr Hwc)
    as [wc [Ewc Fwc]].
  unfold decode_record, decode_segments, encoded_spec. simpl.
  fold a0. rewrite Ecc, Ec, Ewc, Ew. simpl.
  eexists. split; [reflexivity|].
  simpl. repeat (split; [reflexivity|]). auto.
Qed.

End Codec.

(** ** C1: round trip through the alignments directory *)

Lemma pypath_eqb_refl (p : pypath) : pypath_eqb p p = true.
Proof.
  unfold pypath_eqb. rewrite String.eqb_refl.
  destruct (list_eq_dec string_dec (parts p) (parts p)); [reflexivity | congruence].
Qed.

(** C1: for every non-degenerate alignment [a] (rescaling inputs numbers,
    none of n_model_frames, sampling_rate, n_audio_samples zero),
    [write_alignment] followed by [read_alignment] with the same root and id
    gives back an alignment with the same id, n_model_frames,
    n_audio_samples, sampling_rate, partition_score and recognised, and in
    each of the four collections the same labels and scores and numerically
    equal starts and ends (exactly, in rational arithmetic). *)
Theorem write_read_roundtrip (fs : store) (root : pypath) (i : string)
  (a : alignment) :
  is_degenerate a = false -> well_typed a = true ->
  exists fs' b, write_alignment fs root i a = Ok fs' /\
    read_alignment fs' root i = Ok b /\
    id b = id a /\ n_model_frames b = n_model_frames a /\
    n_audio_samples b = n_audio_samples a /\ sampling_rate b = sampling_rate a /\
    partition_score b = partition_score a /\ recognised b = recognised a /\
    Forall2 seg_roundtrip (chars a) (chars b) /\
    Forall2 seg_roundtrip (chars_cleaned a) (chars_cleaned b) /\
    Forall2 seg_roundtrip (words a) (words b) /\
    Forall2 seg_roundtrip (words_cleaned a) (words_cleaned b).
Proof.
  intros Hd Hw.
  destruct (decode_encoded a Hd Hw)
    as [b [Eb [Ei [Er [Em [En [Es [Ep [_ [_ [_ [F1 [F2 [F3 F4]]]]]]]]]]]]]].
  unfold write_alignment. rewrite (alignment_meta_ok a Hd Hw). simpl.
  eexists _, b. split; [reflexivity|].
  split.
  - unfold read_alignment, store_write. rewrite pypath_eqb_refl. exact Eb.
  - repeat (split; [assumption|]). assumption.
Qed.

(** Witness of C1: the example alignment written into an empty store. *)
Lemma write_read_roundtrip_witness :
  is_degenerate ex_alignment = false /\ well_typed ex_alignment = true /\
  exists fs' b, write_alignment empty_store (parse_path "out") "audio/one.mp3"
                  ex_alignment = Ok fs' /\
    read_alignment fs' (parse_path "out") "audio/one.mp3" = Ok b /\
    id b = id ex_alignment /\ n_model_frames b = n_model_frames ex_alignment /\
    n_audio_samples b = n_audio_samples ex_alignment /\
    sampling_rate b = sampling_rate ex_alignment /\
    partition_score b = partition_score ex_alignment /\
    recognised b = recognised ex_alignment /\
    Forall2 seg_roundtrip (chars ex_alignment) (chars b) /\
    Forall2 seg_roundtrip (chars_cleaned ex_alignment) (chars_cleaned b) /\
    Forall2 seg_roundtrip (words ex_alignment) (words b) /\
    Forall2 seg_roundtrip (words_cleaned ex_alignment) (words_cleaned b).
Proof.
  split; [reflexivity|]. split; [reflexivity|].
  apply write_read_roundtrip; reflexivity.
Defined.

(** ** C2: the two rescalings are inverse *)

(** C2: for an alignment with n_model_frames, sampling_rate and
    n_audio_samples positive numbers and every frame count [f] in
    [0, n_model_frames], seconds_to_frames of frames_to_seconds of [f] is
    [f] (exactly, in rational arithmetic). *)
Theorem rescale_roundtrip (a : alignment) (m n r f : Q) :
  py_num (n_model_frames a) = Some m -> py_num (n_audio_samples a) = Some n ->
  py_num (sampling_rate a) = Some r ->
  0 < m -> 0 < r -> 0 < n -> 0 <= f <= m ->
  exists s f', model_frames_to_seconds a (JNum f) = Ok s /\
    seconds_to_model_frames a s = Ok (JNum f') /\ f' == f.
Proof.
  intros Hm Hn Hr Pm Pr Pn _.
  assert (Nm : ~ m == 0) by (intros E; rewrite E in Pm; apply (Qlt_irrefl 0), Pm).
  assert (Nr : ~ r == 0) by (intros E; rewrite E in Pr; apply (Qlt_irrefl 0), Pr).
  assert (Nn : ~ n == 0) by (intros E; rewrite E in Pn; apply (Qlt_irrefl 0), Pn).
  assert (Hd : is_degenerate a = false).
  { unfold is_degenerate, degenerate_meta, py_is_zero. rewrite Hm, Hn, Hr.
    destruct (Qeq_bool m 0) eqn:E1; [apply Qeq_bool_iff in E1; contradiction|].
    destruct (Qeq_bool r 0) eqn:E2; [apply Qeq_bool_iff in E2; contradiction|].
    destruct (Qeq_bool n 0) eqn:E3; [apply Qeq_bool_iff in E3; contradiction|].
    reflexivity. }
  unfold model_frames_to_seconds. rewrite Hd, Hm, Hn, Hr. simpl.
  eexists _, _. split; [reflexivity|]. split.
  - unfold seconds_to_model_frames. rewrite Hd, Hm, Hn, Hr. reflexivity.
  - apply rescale_inverse_Q; assumption.
Qed.

(** Witness of C2: 10 model frames, 160000 samples at 16000 Hz, frame 7. *)
Lemma rescale_roundtrip_witness :
  exists s f', model_frames_to_seconds ex_alignment (JNum 7) = Ok s /\
    seconds_to_model_frames ex_alignment s = Ok (JNum f') /\ f' == 7.
Proof.
  apply (rescale_roundtrip ex_alignment 10 160000 16000 7);
    try reflexivity; try split; vm_compute; congruence.
Defined.

(** ** C6: what encode writes *)

(** C6: for every non-degenerate alignment, [alignment_meta] returns the
    record of Section 4.2: id, n_model_frames, n_audio_samples,
    sampling_rate, partition_score and recognised copied, and for each of
    chars, chars_cleaned, words and words_cleaned the list of
    {label, start, end, score} objects with start and end converted by
    frames_to_seconds and label and score copied. *)
Theorem alignment_meta_spec (a : alignment) :
  is_degenerate a = false -> well_typed a = true ->
  alignment_meta a = Ok (encoded_spec a).
Proof. exact (alignment_meta_ok a). Qed.

(** Witness of C6 on the example alignment. *)
Lemma alignment_meta_spec_witness :
  alignment_meta ex_alignment = Ok (encoded_spec ex_alignment).
Proof. apply alignment_meta_spec; reflexivity. Defined.

(** ** C3: degenerate alignments *)

Section Degenerate.

Lemma meta_alignments_degenerate (a : alignment) (segs : list segment) :
  is_degenerate a = true ->
  meta_alignments a segs =
  match segs with [] => Ok (JList []) | _ => Error DegenerateAlignment end.
Proof.
  intros Hd. destruct segs as [|sg segs]; [reflexivity|].
  unfold meta_alignments, meta_segment, model_frames_to_seconds. simpl.
  rewrite Hd. reflexivity.
Qed.

Lemma dict_to_segment_degenerate (a : alignment) (d : json) :
  is_degenerate a = true -> seg_conforms d ->
  dict_to_segment a d = Error DegenerateAlignment.
Proof.
  intros Hd [_ Hc]. destruct (Hc "start" (or_introl eq_refl)) as [v [q [Hv _]]].
  unfold dict_to_segment. rewrite Hv. simpl.
  unfold seconds_to_model_frames. rewrite Hd. reflexivity.
Qed.

Lemma decode_segments_degenerate (a : alignment) (r : json) (k : string)
  (ds : list json) :
  is_degenerate a = true -> py_getitem r k = Ok (JList ds) ->
  Forall seg_conforms ds ->
  decode_segments a r k =
  match ds with [] => Ok [] | _ => Error DegenerateAlignment end.
Proof.
  intros Hd Hk Hf. unfold decode_segments. rewrite Hk. simpl.
  destruct ds as [|d ds]; [reflexivity|].
  inversion Hf as [|? ? Hd0 _]; subst. simpl.
  rewrite (dict_to_segment_degenerate a d Hd Hd0). reflexivity.
Qed.

End Degenerate.

(** C3 (counterexample): a degenerate alignment (n_model_frames = 0) with
    no segments is encoded without error, and its record is decoded
    without error: no DegenerateAlignment is raised. *)
Lemma degenerate_empty_accepted :
  is_degenerate ex_degenerate_empty = true /\
  exists r b, alignment_meta ex_degenerate_empty = Ok r /\ decode_record r = Ok b.
Proof. split; [reflexivity|]. eexists _, _. split; reflexivity. Qed.

(** C3 (amended): encoding a degenerate alignment fails with
    DegenerateAlignment, raised by the first rescaling, exactly when one of
    its four segment collections is non-empty; when all four are empty it
    succeeds with the record of Section 4.2, which holds no rescaled value.
    Likewise decoding a record with degenerate metadata (and the four
    collections lists of segment objects) fails with DegenerateAlignment
    exactly when a collection is non-empty, and otherwise returns an
    alignment with no segments.  No NaN or Infinity is produced. *)
Theorem degenerate_rejection :
  (forall a, is_degenerate a = true ->
     (alignment_meta a = Error DegenerateAlignment <-> has_segments a = true) /\
     (has_segments a = false -> alignment_meta a = Ok (encoded_spec a))) /\
  (forall r nmf nas sr dcc dc dwc dw,
     record_shape r nmf nas sr dcc dc dwc dw -> degenerate_meta nmf sr nas = true ->
     (decode_record r = Error DegenerateAlignment <-> (dcc ++ dc ++ dwc ++ dw)%list <> []) /\
     ((dcc ++ dc ++ dwc ++ dw)%list = [] ->
      exists b, decode_record r = Ok b /\ chars b = [] /\ chars_cleaned b = [] /\
                words b = [] /\ words_cleaned b = [])).
Proof.
  split.
  - intros a Hd. unfold alignment_meta, has_segments, encoded_spec.
    rewrite !(meta_alignments_degenerate a _ Hd).
    destruct (chars a), (chars_cleaned a), (words a), (words_cleaned a);
      simpl; split; (split; [discriminate || reflexivity | intros; discriminate || reflexivity])
        || (intros; discriminate || reflexivity).
  - intros r nmf nas sr dcc dc dwc dw
      [Hs [Hm [Hn [Hr [Hcc [Hc [Hwc [Hw Hf]]]]]]]] Hd.
    apply Forall_app in Hf as [Fcc Hf]. apply Forall_app in Hf as [Fc Hf].
    apply Forall_app in Hf as [Fwc Fw].
    destruct (Hs "id" ltac:(simpl; auto)) as [i Hi].
    destruct (Hs "recognised" ltac:(simpl; auto)) as [rc Hrc].
    destruct (Hs "partition_score" ltac:(simpl; auto)) as [ps Hps].
    unfold decode_record. rewrite Hi, Hrc, Hm, Hn, Hr, Hps. cbn [bind].
    set (a0 := mkAlignment i [] rc [] [] [] [] [] [] nmf nas sr ps).
    assert (Ha0 : is_degenerate a0 = true) by exact Hd.
    rewrite (decode_segments_degenerate a0 r _ _ Ha0 Hcc Fcc),
            (decode_segments_degenerate a0 r _ _ Ha0 Hc Fc),
            (decode_segments_degenerate a0 r _ _ Ha0 Hwc Fwc),
            (decode_segments_degenerate a0 r _ _ Ha0 Hw Fw).
    destruct dcc, dc, dwc, dw; simpl;
      (split; [split; [discriminate || (intros _; discriminate)
                      | intros H; (reflexivity || (exfalso; apply H; reflexivity))]
              | intros H; (discriminate || (eexists; repeat split))]).
Qed.

(** Witness of C3 (amended): the empty degenerate alignment is encoded, a
    degenerate record with one character segment is rejected. *)
Lemma degenerate_rejection_witness :
  (alignment_meta ex_degenerate_empty = Ok (encoded_spec ex_degenerate_empty)) /\
  decode_record ex_degenerate_record = Error DegenerateAlignment.
Proof.
  split.
  - apply (proj1 degenerate_rejection); reflexivity.
  - apply (proj2 (proj1 (proj2 degenerate_rejection ex_degenerate_record
      (JNum 0) (JNum 16000) (JNum 16000) [] [ex_segment_object] [] []
      ltac:(repeat split; try reflexivity;
            [solve_keys | repeat constructor; solve_keys])
      eq_refl))).
    discriminate.
Defined.

(** ** C4: records missing a scalar field *)

Lemma getitem_dict_cases (kvs : list (string * json)) (k : string) :
  py_getitem (JObj kvs) k = Error (KeyError k) \/
  exists v, py_getitem (JObj kvs) k = Ok v.
Proof. unfold py_getitem. destruct (dict_lookup kvs k); eauto. Qed.

Ltac next_scalar kvs key :=
  let E := fresh "E" in
  let v := fresh "v" in
  destruct (getitem_dict_cases kvs key) as [E|[v E]];
  [exists key; rewrite E; split; [simpl; tauto | split; reflexivity]
  | rewrite E; cbn [bind]].

(** C4: a record lacking a required scalar field (id, recognised,
    n_model_frames, n_audio_samples, sampling_rate, partition_score) is
    rejected by [read_alignment] with the error [KeyError k'] (the Python
    form of the malformed-record error) naming a missing scalar field
    [k'], the first one in the order the fields are read; no default is
    substituted.  In particular a record that has id, recognised,
    n_model_frames and n_audio_samples but no sampling_rate fails with
    [KeyError "sampling_rate"]. *)
Theorem missing_scalar_rejected :
  (forall r k, In k scalar_keys -> py_getitem r k = Error (KeyError k) ->
     exists k', In k' scalar_keys /\ py_getitem r k' = Error (KeyError k') /\
                decode_record r = Error (KeyError k')) /\
  (forall r,
     (forall k, In k ["id"; "recognised"; "n_model_frames"; "n_audio_samples"] ->
        exists v, py_getitem r k = Ok v) ->
     py_getitem r "sampling_rate" = Error (KeyError "sampling_rate") ->
     decode_record r = Error (KeyError "sampling_rate")).
Proof.
  split.
  - intros r k Hk Hmiss.
    destruct r as [| | | | |kvs]; try discriminate Hmiss.
    unfold decode_record.
    next_scalar kvs "id". next_scalar kvs "recognised".
    next_scalar kvs "n_model_frames". next_scalar kvs "n_audio_samples".
    next_scalar kvs "sampling_rate". next_scalar kvs "partition_score".
    exfalso. simpl in Hk.
    repeat (destruct Hk as [<-|Hk]; [congruence|]). exact Hk.
  - intros r Hs Hsr.
    destruct (Hs "id" ltac:(simpl; tauto)) as [i Hi].
    destruct (Hs "recognised" ltac:(simpl; tauto)) as [rc Hrc].
    destruct (Hs "n_model_frames" ltac:(simpl; tauto)) as [m Hm].
    destruct (Hs "n_audio_samples" ltac:(simpl; tauto)) as [n Hn].
    unfold decode_record. rewrite Hi, Hrc, Hm, Hn, Hsr. reflexivity.
Qed.

(** Witness of C4: the record without "sampling_rate". *)
Lemma missing_scalar_rejected_witness :
  decode_record ex_record_no_rate = Error (KeyError "sampling_rate") /\
  exists k', In k' scalar_keys /\ py_getitem ex_record_no_rate k' = Error (KeyError k')
             /\ decode_record ex_record_no_rate = Error (KeyError k').
Proof.
  split.
  - apply (proj2 missing_scalar_rejected); [solve_keys | reflexivity].
  - apply (proj1 missing_scalar_rejected ex_record_no_rate "sampling_rate");
      [simpl; tauto | reflexivity].
Defined.

(** ** C7: what decode returns *)

Section Decode.

Lemma zero_test_false (v : json) (q : Q) :
  py_num v = Some q -> ~ (q == 0)%Q -> py_is_zero v = false.
Proof.
  unfold py_is_zero. intros -> Hq.
  destruct (Qeq_bool q 0) eqn:E; [apply Qeq_bool_iff in E; contradiction | reflexivity].
Qed.

Lemma dict_to_segment_conforming (a : alignment) (m n q : Q) (d : json) :
  is_degenerate a = false -> py_num (n_model_frames a) = Some m ->
  py_num (sampling_rate a) = Some q -> py_num (n_audio_samples a) = Some n ->
  seg_conforms d ->
  exists t, dict_to_segment a d = Ok t /\ seg_decoded m q n d t.
Proof.
  intros Hd Hm Hq Hn [Hls Hse].
  destruct (Hls "label" ltac:(simpl; tauto)) as [l Hl].
  destruct (Hls "score" ltac:(simpl; tauto)) as [sc Hsc].
  destruct (Hse "start" ltac:(simpl; tauto)) as [vs [qs [Hs Hqs]]].
  destruct (Hse "end" ltac:(simpl; tauto)) as [ve [qe [He Hqe]]].
  unfold dict_to_segment. rewrite Hs. cbn [bind].
  unfold seconds_to_model_frames. rewrite Hd, Hqs, Hm, Hq, Hn. cbn [bind].
  rewrite He. cbn [bind]. rewrite Hqe. cbn [bind].
  rewrite Hl. cbn [bind]. rewrite Hsc. cbn [bind].
  eexists. split; [reflexivity|].
  unfold seg_decoded. simpl. split; [exact Hl|]. split; [exact Hsc|].
  split; eexists _, _; eauto.
Qed.

Lemma decode_segments_conforming (a : alignment) (m n q : Q) (r : json)
  (k : string) (ds : list json) :
  is_degenerate a = false -> py_num (n_model_frames a) = Some m ->
  py_num (sampling_rate a) = Some q -> py_num (n_audio_samples a) = Some n ->
  py_getitem r k = Ok (JList ds) -> Forall seg_conforms ds ->
  exists ts, decode_segments a r k = Ok ts /\ Forall2 (seg_decoded m q n) ds ts.
Proof.
  intros Hd Hm Hq Hn Hk Hf. unfold decode_segments. rewrite Hk. cbn [bind py_iter].
  clear Hk.
  induction Hf as [|d ds Hd0 Hf IH].
  - exists []. split; [reflexivity | constructor].
  - destruct IH as [ts [Ets Fts]].
    destruct (dict_to_segment_conforming a m n q d Hd Hm Hq Hn Hd0) as [t [Et Ft]].
    cbn [mapM]. rewrite Et. cbn [bind]. rewrite Ets. cbn [bind].
    exists (t :: ts). split; [reflexivity | constructor; assumption].
Qed.

End Decode.

(** C7: for every conforming record (the scalar keys present, the
    rescaling inputs non-zero numbers, the four collections lists of
    segment objects with label, score and numeric start and end),
    [read_alignment] returns an alignment whose id, recognised,
    n_model_frames, n_audio_samples, sampling_rate and partition_score are
    the record's, whose log-probabilities, trellis and path are empty, and
    whose four collections hold, in order, the record's segments with label
    and score copied and start and end converted by seconds_to_frames. *)
Theorem decode_conforming (r i rc ps nmf nas sr : json) (m n q : Q)
  (dcc dc dwc dw : list json) :
  py_getitem r "id" = Ok i -> py_getitem r "recognised" = Ok rc ->
  py_getitem r "n_model_frames" = Ok nmf -> py_getitem r "n_audio_samples" = Ok nas ->
  py_getitem r "sampling_rate" = Ok sr -> py_getitem r "partition_score" = Ok ps ->
  py_num nmf = Some m -> py_num nas = Some n -> py_num sr = Some q ->
  ~ (m == 0)%Q -> ~ (n == 0)%Q -> ~ (q == 0)%Q ->
  py_getitem r "chars_cleaned" = Ok (JList dcc) -> py_getitem r "chars" = Ok (JList dc) ->
  py_getitem r "words_cleaned" = Ok (JList dwc) -> py_getitem r "words" = Ok (JList dw) ->
  Forall seg_conforms (dcc ++ dc ++ dwc ++ dw) ->
  exists b, decode_record r = Ok b /\
    id b = i /\ recognised b = rc /\ n_model_frames b = nmf /\
    n_audio_samples b = nas /\ sampling_rate b = sr /\ partition_score b = ps /\
    log_probs b = [] /\ trellis b = [] /\ path b = [] /\
    Forall2 (seg_decoded m q n) dcc (chars_cleaned b) /\
    Forall2 (seg_decoded m q n) dc (chars b) /\
    Forall2 (seg_decoded m q n) dwc (words_cleaned b) /\
    Forall2 (seg_decoded m q n) dw (words b).
Proof.
  intros Hi Hrc Hm Hn Hsr Hps Qm Qn Qq Nm Nn Nq Hcc Hc Hwc Hw Hf.
  apply Forall_app in Hf as [Fcc Hf]. apply Forall_app in Hf as [Fc Hf].
  apply Forall_app in Hf as [Fwc Fw].
  unfold decode_record. rewrite Hi, Hrc, Hm, Hn, Hsr, Hps. cbn [bind].
  set (a0 := mkAlignment i [] rc [] [] [] [] [] [] nmf nas sr ps).
  assert (Hd : is_degenerate a0 = false).
  { unfold is_degenerate, degenerate_meta. simpl.
    rewrite (zero_test_false _ _ Qm Nm), (zero_test_false _ _ Qq Nq),
            (zero_test_false _ _ Qn Nn).
    reflexivity. }
  destruct (decode_segments_conforming a0 m n q r _ _ Hd Qm Qq Qn Hcc Fcc) as [cc [Ecc Gcc]].
  destruct (decode_segments_conforming a0 m n q r _ _ Hd Qm Qq Qn Hc Fc) as [c [Ec Gc]].
  destruct (decode_segments_conforming a0 m n q r _ _ Hd Qm Qq Qn Hwc Fwc) as [wc [Ewc Gwc]].
  destruct (decode_segments_conforming a0 m n q r _ _ Hd Qm Qq Qn Hw Fw) as [w [Ew Gw]].
  rewrite Ecc. cbn [bind]. rewrite Ec. cbn [bind]. rewrite Ewc. cbn [bind].
  rewrite Ew. cbn [bind].
  eexists. split; [reflexivity|]. simpl.
  repeat (split; [reflexivity|]). auto.
Qed.

(** Witness of C7: the conforming example record. *)
Lemma decode_conforming_witness :
  exists b, decode_record ex_record_ok = Ok b /\ log_probs b = [] /\
    n_model_frames b = JNum 10 /\
    Forall2 (seg_decoded 10 16000 16000) [ex_segment_object] (chars b) /\
    Forall2 (seg_decoded 10 16000 16000) [ex_segment_object] (words b).
Proof.
  destruct (decode_conforming ex_record_ok (JStr "x.mp3") (JStr "a") (JNum 0)
              (JNum 10) (JNum 16000) (JNum 16000) 10 16000 16000
              [] [ex_segment_object] [] [ex_segment_object]
              eq_refl eq_refl eq_refl eq_refl eq_refl eq_refl eq_refl eq_refl eq_refl
              ltac:(discriminate) ltac:(discriminate) ltac:(discriminate)
              eq_refl eq_refl eq_refl eq_refl
              ltac:(repeat constructor; solve_keys))
    as [b [E [_ [_ [Hm [_ [_ [_ [Hl [_ [_ [_ [Fc [_ Fw]]]]]]]]]]]]]].
  exists b. repeat split; assumption.
Defined.

(** ** C8: encode keeps the order of each collection *)

(** C8: encoding a segment collection gives a list of the same length
    whose [k]-th entry is the encoding of the [k]-th segment (no
    re-sorting).  On the words [a, 0, 2, 0.9], [b, 2, 5, 0.8] with 10 model
    frames, 160000 samples at 16000 Hz, the entries are a then b, at
    0-2 s and 2-5 s: the second starts where the first ends. *)
Theorem meta_alignments_order :
  (forall a segs l, meta_alignments a segs = Ok (JList l) ->
     length l = length segs /\ Forall2 (fun sg o => meta_segment a sg = Ok o) segs l) /\
  (exists o1 o2, meta_alignments ex_alignment ex_words = Ok (JList [o1; o2]) /\
     py_getitem o1 "label" = Ok (JStr "a") /\ py_getitem o2 "label" = Ok (JStr "b") /\
     seg_field o1 "start" == 0 /\ seg_field o1 "end" == 2 /\
     seg_field o2 "start" == 2 /\ seg_field o2 "end" == 5 /\
     seg_field o2 "start" == seg_field o1 "end").
Proof.
  split.
  - intros a segs l. unfold meta_alignments.
    destruct (mapM (meta_segment a) segs) as [l'|e] eqn:E; cbn [bind];
      [|discriminate].
    intros H. injection H as <-.
    revert l' E. induction segs as [|sg segs IH]; intros l' E.
    + injection E as <-. split; [reflexivity | constructor].
    + cbn [mapM] in E. destruct (meta_segment a sg) as [o|e] eqn:Eo;
        cbn [bind] in E; [|discriminate].
      destruct (mapM (meta_segment a) segs) as [os|e] eqn:Eos;
        cbn [bind] in E; [|discriminate].
      injection E as <-. destruct (IH os eq_refl) as [Hlen Hall].
      split; [simpl; rewrite Hlen; reflexivity | constructor; assumption].
  - eexists _, _. split; [reflexivity|].
    repeat split; try reflexivity.
Qed.

(** Witness of C8 on the words of the example alignment. *)
Lemma meta_alignments_order_witness :
  exists l, meta_alignments ex_alignment ex_words = Ok (JList l) /\
    length l = length ex_words.
Proof.
  exists (match meta_alignments ex_alignment ex_words with
          | Ok (JList l) => l | _ => [] end).
  split; [reflexivity|].
  apply (proj1 meta_alignments_order ex_alignment). reflexivity.
Defined.

(** ** C9: decode returns a complete alignment or nothing *)

Lemma decode_segments_meta (a b : alignment) (r : json) (k : string) :
  n_model_frames a = n_model_frames b -> n_audio_samples a = n_audio_samples b ->
  sampling_rate a = sampling_rate b ->
  decode_segments a r k = decode_segments b r k.
Proof.
  intros E1 E2 E3.
  unfold decode_segments, dict_to_segment, seconds_to_model_frames, is_degenerate.
  rewrite E1, E2, E3. reflexivity.
Qed.

Ltac split_ok E key :=
  let H := fresh "H" in
  match type of E with
  | context [py_getitem ?r key] =>
      destruct (py_getitem r key) eqn:H; cbn [bind] in E; [|discriminate E]
  | context [decode_segments ?a ?r key] =>
      destruct (decode_segments a r key) eqn:H; cbn [bind] in E; [|discriminate E]
  end.

(** C9: [read_alignment] on a record either raises, returning no
    alignment, or returns an alignment in which every field is set from the
    record: the six scalars read from it, the raw arrays empty, and each of
    the four collections the full decoding of the record's collection. *)
Theorem decode_all_or_nothing (r : json) :
  (exists e, decode_record r = Error e) \/
  (exists b, decode_record r = Ok b /\ fully_populated r b).
Proof.
  destruct (decode_record r) as [b|e] eqn:E; [right | left; eauto].
  exists b. split; [reflexivity|].
  unfold decode_record in E.
  split_ok E "id". split_ok E "recognised". split_ok E "n_model_frames".
  split_ok E "n_audio_samples". split_ok E "sampling_rate".
  split_ok E "partition_score".
  split_ok E "chars_cleaned". split_ok E "chars".
  split_ok E "words_cleaned". split_ok E "words".
  injection E as <-. unfold fully_populated. simpl.
  repeat split; try assumption;
    (erewrite decode_segments_meta; [eassumption | reflexivity ..]).
Qed.

(** ** C10: only the documented keys matter *)

Section Agreement.

Lemma dict_to_segment_agree (a : alignment) (d1 d2 : json) :
  seg_agree d1 d2 -> dict_to_segment a d1 = dict_to_segment a d2.
Proof.
  intros H. unfold dict_to_segment.
  rewrite (H "start"), (H "end"), (H "label"), (H "score");
    simpl; tauto.
Qed.

Lemma mapM_agree (a : alignment) (l1 l2 : list json) :
  Forall2 seg_agree l1 l2 ->
  mapM (dict_to_segment a) l1 = mapM (dict_to_segment a) l2.
Proof.
  induction 1 as [|d1 d2 l1 l2 Hd _ IH]; [reflexivity|].
  cbn [mapM]. rewrite (dict_to_segment_agree a d1 d2 Hd), IH. reflexivity.
Qed.

Lemma decode_segments_agree (a : alignment) (r1 r2 : json) (k : string) :
  coll_agree (py_getitem r1 k) (py_getitem r2 k) ->
  decode_segments a r1 k = decode_segments a r2 k.
Proof.
  unfold decode_segments, coll_agree.
  destruct (py_getitem r1 k) as [v1|e1], (py_getitem r2 k) as [v2|e2];
    cbn [bind]; try contradiction; [|intros ->; reflexivity].
  unfold iter_agree.
  destruct (py_iter v1) as [l1|f1], (py_iter v2) as [l2|f2];
    cbn [bind]; try contradiction; [apply mapM_agree | intros ->; reflexivity].
Qed.

Lemma decode_agree (r1 r2 : json) :
  records_agree r1 r2 -> decode_record r1 = decode_record r2.
Proof.
  intros [Hs Hc]. unfold decode_record.
  rewrite (Hs "id"), (Hs "recognised"), (Hs "n_model_frames"),
    (Hs "n_audio_samples"), (Hs "sampling_rate"), (Hs "partition_score")
    by (simpl; tauto).
  destruct (py_getitem r2 "id"); cbn [bind]; [|reflexivity].
  destruct (py_getitem r2 "recognised"); cbn [bind]; [|reflexivity].
  destruct (py_getitem r2 "n_model_frames"); cbn [bind]; [|reflexivity].
  destruct (py_getitem r2 "n_audio_samples"); cbn [bind]; [|reflexivity].
  destruct (py_getitem r2 "sampling_rate"); cbn [bind]; [|reflexivity].
  destruct (py_getitem r2 "partition_score"); cbn [bind]; [|reflexivity].
  rewrite (decode_segments_agree _ r1 r2 "chars_cleaned"),
    (decode_segments_agree _ r1 r2 "chars"),
    (decode_segments_agree _ r1 r2 "words_cleaned"),
    (decode_segments_agree _ r1 r2 "words")
    by (apply Hc; simpl; tauto).
  reflexivity.
Qed.

Lemma coll_agree_refl (x : result json) : coll_agree x x.
Proof.
  destruct x as [v|e]; simpl; [|reflexivity].
  unfold iter_agree. destruct (py_iter v) as [l|e]; [|reflexivity].
  induction l; constructor; [intros ? _; reflexivity | assumption].
Qed.

Lemma dict_lookup_extra (kvs1 kvs2 : list (string * json)) (k k' : string)
  (v : json) :
  k' <> k ->
  dict_lookup (kvs1 ++ (k, v) :: kvs2) k' = dict_lookup (kvs1 ++ kvs2) k'.
Proof.
  intros Hne. unfold dict_lookup. rewrite !fold_left_app. simpl.
  apply String.eqb_neq in Hne. rewrite Hne. reflexivity.
Qed.

End Agreement.

(** C10: [read_alignment] depends only on the documented keys: two records
    agreeing on id, recognised, n_model_frames, n_audio_samples,
    sampling_rate, partition_score and, segment by segment, on the
    label, start, end and score of the four collections decode to the same
    result; and an extra top-level key, anywhere in the record, leaves the
    result unchanged (extra keys inside segment objects are covered by the
    first part). *)
Theorem decode_documented_keys_only :
  (forall r1 r2, records_agree r1 r2 -> decode_record r1 = decode_record r2) /\
  (forall kvs1 kvs2 k v, ~ In k (scalar_keys ++ collection_keys) ->
     decode_record (JObj (kvs1 ++ (k, v) :: kvs2)) = decode_record (JObj (kvs1 ++ kvs2))).
Proof.
  split; [exact decode_agree|].
  intros kvs1 kvs2 k v Hk. apply decode_agree. split.
  - intros k' Hk'. simpl. rewrite dict_lookup_extra; [reflexivity|].
    intros ->. apply Hk, in_or_app. left. exact Hk'.
  - intros k' Hk'. simpl. rewrite dict_lookup_extra; [apply coll_agree_refl|].
    intros ->. apply Hk, in_or_app. right. exact Hk'.
Qed.

(** Witness of C10: an extra "version" key, and a segment object with an
    extra "speaker" key, do not change the decoding of the example record. *)
Lemma decode_documented_keys_only_witness :
  decode_record (JObj ([("version", JNum 2)] ++
    [("id", JStr "x.mp3"); ("recognised", JStr "a");
     ("n_model_frames", JNum 10); ("n_audio_samples", JNum 16000);
     ("sampling_rate", JNum 16000); ("partition_score", JNum 0);
     ("chars_cleaned", JList []); ("chars", JList [ex_segment_object]);
     ("words_cleaned", JList []); ("words", JList [ex_segment_object])]))
  = decode_record ex_record_ok /\
  decode_record
    (JObj [("id", JStr "x.mp3"); ("recognised", JStr "a");
           ("n_model_frames", JNum 10); ("n_audio_samples", JNum 16000);
           ("sampling_rate", JNum 16000); ("partition_score", JNum 0);
           ("chars_cleaned", JList []);
           ("chars", JList [JObj [("speaker", JNum 1); ("label", JStr "a");
                                  ("start", JNum 0); ("end", JNum (1#10));
                                  ("score", JNum (9#10))]]);
           ("words_cleaned", JList []); ("words", JList [ex_segment_object])])
  = decode_record ex_record_ok.
Proof.
  split.
  - apply (proj2 decode_documented_keys_only [] _ "version" (JNum 2)).
    simpl. intuition discriminate.
  - apply (proj1 decode_documented_keys_only). split.
    + intros k Hk. simpl in Hk.
      repeat (destruct Hk as [<-|Hk]; [reflexivity|]). contradiction.
    + intros k Hk. simpl in Hk.
      repeat (destruct Hk as [<-|Hk];
              [simpl; unfold iter_agree; simpl;
               repeat constructor; intros k' Hk'; simpl in Hk';
               repeat (destruct Hk' as [<-|Hk']; [reflexivity|]); contradiction|]).
      contradiction.
Defined.

(** * Further properties of utils.py *)

(** ** Locations *)

Section Locations.

Lemma parse_path_slash_free (s : string) : slash_free (parse_path s).
Proof.
  intros x Hx. unfold parse_path in Hx. simpl in Hx.
  apply filter_In in Hx as [Hx _]. exact (in_split_has_no_slash s x Hx).
Qed.

Lemma path_div_slash_free (p : pypath) (s : string) :
  slash_free p -> slash_free (path_div p s).
Proof.
  intros Hp. unfold path_div.
  destruct (String.eqb (anchor (parse_path s)) ""); [|apply parse_path_slash_free].
  intros x Hx. simpl in Hx. apply in_app_or in Hx as [Hx|Hx];
    [apply Hp, Hx | apply (parse_path_slash_free s), Hx].
Qed.

Lemma last_in_or_default {A} (l : list A) (d : A) : l = [] \/ In (last l d) l.
Proof.
  induction l as [|x l IH]; [left; reflexivity|right].
  destruct l as [|y l]; [left; reflexivity|].
  destruct IH as [E|IH]; [discriminate|]. right. exact IH.
Qed.

(** The location is the directory of [root / id] with the name of
    [root / id] plus ".json" as a single last part. *)
Lemma alignment_filename_shape (root : pypath) (i : string) :
  slash_free root ->
  alignment_filename root i =
  mkPath (anchor (path_div root i))
    (removelast (parts (path_div root i))
       ++ [last (parts (path_div root i)) "" ++ ".json"]).
Proof.
  intros Hr. pose proof (path_div_slash_free root i Hr) as Hf.
  assert (Hn : has_slash (last (parts (path_div root i)) "") = false).
  { destruct (last_in_or_default (parts (path_div root i)) "") as [E|H].
    - rewrite E. reflexivity.
    - apply Hf, H. }
  assert (Hj : forall p x, has_slash x = false ->
                path_div p (x ++ ".json") = mkPath (anchor p) (parts p ++ [x ++ ".json"])).
  { intros p x Hx. unfold path_div. rewrite (parse_json_name _ Hx). reflexivity. }
  unfold alignment_filename, path_name. rewrite (Hj _ _ Hn).
  unfold path_parent.
  destruct (path_div root i) as [an ps]. simpl.
  destruct ps; reflexivity.
Qed.

End Locations.

(** X1: for every root given as a string and every id, the location of
    [alignment_filename] has the anchor of [root / id], all of its parts but
    the last, and then that last part (the name) with ".json" appended, as
    a single part: the file always lies in the directory of [root / id]. *)
Theorem alignment_filename_parent_name (rs i : string) :
  let f := path_div (parse_path rs) i in
  alignment_filename (parse_path rs) i =
  mkPath (anchor f) (parts (path_parent f) ++ [path_name f ++ ".json"]).
Proof.
  intros f. rewrite (alignment_filename_shape _ i (parse_path_slash_free rs)).
  unfold path_parent, path_name. fold f.
  destruct f as [an ps]. simpl. destruct ps; reflexivity.
Qed.

(** X2: an id that is relative and keeps at least one component after
    pathlib drops its empty and "." components is placed under the root:
    the location is the root's parts, the kept components but the last, and
    the last kept component with ".json" appended. *)
Theorem alignment_filename_relative (rs i : string) :
  path_root i = "" -> filter keep_part (split_slash i) <> [] ->
  alignment_filename (parse_path rs) i =
  mkPath (path_root rs)
    (parts (parse_path rs) ++ removelast (filter keep_part (split_slash i))
       ++ [last (filter keep_part (split_slash i)) "" ++ ".json"]).
Proof.
  intros Hr Hne. rewrite (alignment_filename_shape _ i (parse_path_slash_free rs)).
  unfold path_div. unfold parse_path at 2. simpl. rewrite Hr. simpl.
  rewrite removelast_app by exact Hne. rewrite last_app_nonnil by exact Hne.
  rewrite app_assoc. reflexivity.
Qed.

(** Witness of X2: "./audio//one.mp3" under "out". *)
Lemma alignment_filename_relative_witness :
  alignment_filename (parse_path "out") "./audio//one.mp3" =
  mkPath "" ["out"; "audio"; "one.mp3.json"].
Proof. apply alignment_filename_relative; [reflexivity | discriminate]. Defined.

(** X3: a relative id that keeps no component ("", ".", "./", ...) is not
    placed under the root: the location is the root's name plus ".json" in
    the root's parent directory ("out" gives "out.json"). *)
Theorem alignment_filename_empty_id (rs i : string) :
  path_root i = "" -> filter keep_part (split_slash i) = [] ->
  alignment_filename (parse_path rs) i =
  mkPath (path_root rs)
    (removelast (parts (parse_path rs)) ++ [last (parts (parse_path rs)) "" ++ ".json"]).
Proof.
  intros Hr He. rewrite (alignment_filename_shape _ i (parse_path_slash_free rs)).
  unfold path_div. unfold parse_path at 2. simpl. rewrite Hr, He. simpl.
  rewrite app_nil_r. reflexivity.
Qed.

(** Witness of X3: the empty id under "out". *)
Lemma alignment_filename_empty_id_witness :
  alignment_filename (parse_path "out") "" = mkPath "" ["out.json"].
Proof. apply alignment_filename_empty_id; reflexivity. Defined.

(** X4: an absolute id ignores the root: its location is the same under
    every root. *)
Theorem alignment_filename_absolute (r1 r2 : pypath) (i : string) :
  path_root i <> "" -> alignment_filename r1 i = alignment_filename r2 i.
Proof.
  intros H. apply String.eqb_neq in H.
  assert (E : forall r, path_div r i = parse_path i).
  { intros r. unfold path_div. simpl. rewrite H. reflexivity. }
  unfold alignment_filename. rewrite (E r1), (E r2). reflexivity.
Qed.

(** Witness of X4: "/data/one.mp3" under "out" and under "/tmp". *)
Lemma alignment_filename_absolute_witness :
  alignment_filename (parse_path "out") "/data/one.mp3" =
  alignment_filename (parse_path "/tmp") "/data/one.mp3".
Proof. apply alignment_filename_absolute. discriminate. Defined.

(** ** The alignments directory *)






(** ** Decode then encode *)

Section Reencode.

Lemma reencode_segments (a : alignment) (m n q : Q) (ds : list json) (ts : list segment) :
  is_degenerate a = false -> py_num (n_model_frames a) = Some m ->
  py_num (sampling_rate a) = Some q -> py_num (n_audio_samples a) = Some n ->
  ~ (m == 0)%Q -> ~ (n == 0)%Q -> ~ (q == 0)%Q ->
  Forall2 (seg_decoded m q n) ds ts ->
  exists os, meta_alignments a ts = Ok (JList os) /\ Forall2 seg_reencoded ds os.
Proof.
  intros Hd Hm Hq Hn Nm Nn Nq Hf. unfold meta_alignments.
  enough (H : exists os, mapM (meta_segment a) ts = Ok os /\ Forall2 seg_reencoded ds os).
  { destruct H as [os [E F]]. rewrite E. exists os. split; [reflexivity | exact F]. }
  induction Hf as [|d t ds ts Hdt _ IH].
  - exists []. split; [reflexivity | constructor].
  - destruct IH as [os [Eos Fos]].
    destruct Hdt as [Hl [Hsc [[vs [qs [Hs [Hqs Hst]]]] [ve [qe [He [Hqe Hen]]]]]]].
    cbn [mapM]. rewrite Eos. unfold meta_segment.
    unfold model_frames_to_seconds. rewrite Hd, Hst, Hen, Hn, Hq, Hm. cbn [bind py_num].
    eexists. split; [reflexivity|]. constructor; [|exact Fos].
    exists (label t), (JNum (qs * m * q / n * n / q / m)),
           (JNum (qe * m * q / n * n / q / m)), (score t).
    split; [reflexivity|]. split; [exact Hl|]. split; [exact Hsc|].
    split; [exists vs | exists ve]; (split; [assumption|]);
      eexists _, _; (split; [reflexivity|]); (split; [eassumption|]); field; auto.
Qed.

End Reencode.

(** X7: reading a conforming record (the scalar keys present, the rescaling
    inputs non-zero numbers, the four collections lists of segment objects
    with label, score and numeric start and end) and encoding the result
    again gives back the record: the same six scalar values, and in each
    collection, in order, one {label, start, end, score} object per segment
    object of the record, with the same label and score and numerically
    equal start and end (exactly, in rational arithmetic).  Extra keys of
    the record and of its segment objects are dropped. *)
Theorem decode_then_encode (r nmf nas sr : json) (m n q : Q)
  (dcc dc dwc dw : list json) :
  record_shape r nmf nas sr dcc dc dwc dw ->
  py_num nmf = Some m -> py_num nas = Some n -> py_num sr = Some q ->
  ~ (m == 0)%Q -> ~ (n == 0)%Q -> ~ (q == 0)%Q ->
  exists b r', decode_record r = Ok b /\ alignment_meta b = Ok r' /\
    (forall k, In k scalar_keys -> py_getitem r' k = py_getitem r k) /\
    exists occ oc owc ow,
      py_getitem r' "chars_cleaned" = Ok (JList occ) /\
      py_getitem r' "chars" = Ok (JList oc) /\
      py_getitem r' "words_cleaned" = Ok (JList owc) /\
      py_getitem r' "words" = Ok (JList ow) /\
      Forall2 seg_reencoded dcc occ /\ Forall2 seg_reencoded dc oc /\
      Forall2 seg_reencoded dwc owc /\ Forall2 seg_reencoded dw ow.
Proof.
  intros [Hs [Hm [Hn [Hr [Hcc [Hc [Hwc [Hw Hf]]]]]]]] Qm Qn Qq Nm Nn Nq.
  apply Forall_app in Hf as [Fcc Hf]. apply Forall_app in Hf as [Fc Hf].
  apply Forall_app in Hf as [Fwc Fw].
  destruct (Hs "id" ltac:(simpl; auto)) as [i Hi].
  destruct (Hs "recognised" ltac:(simpl; auto)) as [rc Hrc].
  destruct (Hs "partition_score" ltac:(simpl; auto)) as [ps Hps].
  unfold decode_record. rewrite Hi, Hrc, Hm, Hn, Hr, Hps. cbn [bind].
  set (a0 := mkAlignment i [] rc [] [] [] [] [] [] nmf nas sr ps).
  assert (Hd : is_degenerate a0 = false).
  { unfold is_degenerate, degenerate_meta. simpl.
    rewrite (zero_test_false _ _ Qm Nm), (zero_test_false _ _ Qq Nq),
            (zero_test_false _ _ Qn Nn).
    reflexivity. }
  destruct (decode_segments_conforming a0 m n q r _ _ Hd Qm Qq Qn Hcc Fcc) as [cc [Ecc Gcc]].
  destruct (decode_segments_conforming a0 m n q r _ _ Hd Qm Qq Qn Hc Fc) as [c [Ec Gc]].
  destruct (decode_segments_conforming a0 m n q r _ _ Hd Qm Qq Qn Hwc Fwc) as [wc [Ewc Gwc]].
  destruct (decode_segments_conforming a0 m n q r _ _ Hd Qm Qq Qn Hw Fw) as [w [Ew Gw]].
  rewrite Ecc. cbn [bind]. rewrite Ec. cbn [bind]. rewrite Ewc. cbn [bind].
  rewrite Ew. cbn [bind].
  set (b := mkAlignment i [] rc [] [] cc c wc w nmf nas sr ps).
  assert (Hdb : is_degenerate b = false) by exact Hd.
  destruct (reencode_segments b m n q _ _ Hdb Qm Qq Qn Nm Nn Nq Gcc) as [occ [Occ Rcc]].
  destruct (reencode_segments b m n q _ _ Hdb Qm Qq Qn Nm Nn Nq Gc) as [oc [Oc Rc]].
  destruct (reencode_segments b m n q _ _ Hdb Qm Qq Qn Nm Nn Nq Gwc) as [owc [Owc Rwc]].
  destruct (reencode_segments b m n q _ _ Hdb Qm Qq Qn Nm Nn Nq Gw) as [ow [Ow Rw]].
  exists b. eexists. split; [reflexivity|].
  split.
  { unfold alignment_meta. change (chars b) with c. change (chars_cleaned b) with cc.
    change (words b) with w. change (words_cleaned b) with wc.
    rewrite Oc, Occ, Ow, Owc. reflexivity. }
  split.
  - intros k Hk. simpl in Hk.
    repeat (destruct Hk as [<-|Hk]; [simpl; congruence|]). contradiction.
  - exists occ, oc, owc, ow. repeat (split; [reflexivity|]). auto.
Qed.

(** Witness of X7: the conforming example record. *)
Lemma decode_then_encode_witness :
  exists b r', decode_record ex_record_ok = Ok b /\ alignment_meta b = Ok r' /\
    (forall k, In k scalar_keys -> py_getitem r' k = py_getitem ex_record_ok k) /\
    exists occ oc owc ow,
      py_getitem r' "chars_cleaned" = Ok (JList occ) /\
      py_getitem r' "chars" = Ok (JList oc) /\
      py_getitem r' "words_cleaned" = Ok (JList owc) /\
      py_getitem r' "words" = Ok (JList ow) /\
      Forall2 seg_reencoded [] occ /\ Forall2 seg_reencoded [ex_segment_object] oc /\
      Forall2 seg_reencoded [] owc /\ Forall2 seg_reencoded [ex_segment_object] ow.
Proof.
  apply (decode_then_encode ex_record_ok (JNum 10) (JNum 16000) (JNum 16000)
           10 16000 16000 [] [ex_segment_object] [] [ex_segment_object]);
    try reflexivity; try discriminate.
  repeat split; try reflexivity; [solve_keys | repeat constructor; solve_keys].
Defined.

(** ** Encoding keeps a tier ordered *)

Section Tiers.

Lemma tier_ordered_map (g : Q -> Q) (l : list (Q * Q)) :
  (forall x y, x <= y -> g x <= g y) ->
  tier_ordered l -> tier_ordered (map (fun p => (g (fst p), g (snd p))) l).
Proof.
  intros Hg. induction l as [|p rest IH]; simpl; [trivial|].
  intros [H1 [H2 H3]]. split; [apply Hg, H1|]. split; [|apply IH, H3].
  destruct rest as [|p' rest]; simpl; [trivial | apply Hg, H2].
Qed.

Lemma model_frames_to_seconds_inv (a : alignment) (x v : json) (m n r : Q) :
  py_num (n_model_frames a) = Some m -> py_num (n_audio_samples a) = Some n ->
  py_num (sampling_rate a) = Some r ->
  model_frames_to_seconds a x = Ok v ->
  exists f, py_num x = Some f /\ v = JNum (f * n / r / m).
Proof.
  intros Hm Hn Hr. unfold model_frames_to_seconds.
  destruct (is_degenerate a); [discriminate|].
  rewrite Hm, Hn, Hr. destruct (py_num x) as [f|]; [|discriminate].
  intros H. injection H as <-. eauto.
Qed.

Lemma meta_spans (a : alignment) (m n r : Q) (segs : list segment) (os : list json) :
  py_num (n_model_frames a) = Some m -> py_num (n_audio_samples a) = Some n ->
  py_num (sampling_rate a) = Some r ->
  mapM (meta_segment a) segs = Ok os ->
  map obj_span os = map (fun p => (fst p * n / r / m, snd p * n / r / m))
                      (map seg_span segs).
Proof.
  intros Hm Hn Hr. revert os. induction segs as [|sg segs IH]; intros os E.
  - injection E as <-. reflexivity.
  - cbn [mapM] in E.
    destruct (meta_segment a sg) as [o|e] eqn:Eo; cbn [bind] in E; [|discriminate].
    destruct (mapM (meta_segment a) segs) as [os'|e] eqn:Eos; cbn [bind] in E;
      [|discriminate].
    injection E as <-. cbn [map]. rewrite (IH os' eq_refl).
    unfold meta_segment in Eo.
    destruct (model_frames_to_seconds a (start sg)) as [st|e] eqn:Es; cbn [bind] in Eo;
      [|discriminate].
    destruct (model_frames_to_seconds a (end_ sg)) as [en|e] eqn:Ee; cbn [bind] in Eo;
      [|discriminate].
    injection Eo as <-.
    destruct (model_frames_to_seconds_inv a _ _ m n r Hm Hn Hr Es) as [fs [Hfs ->]].
    destruct (model_frames_to_seconds_inv a _ _ m n r Hm Hn Hr Ee) as [fe [Hfe ->]].
    unfold obj_span, seg_span, seg_field, num_of. simpl. rewrite Hfs, Hfe. reflexivity.
Qed.

End Tiers.

(** X8: for an alignment whose n_model_frames, n_audio_samples and
    sampling_rate are non-negative numbers, encoding a tier whose spans are
    ordered in model frames (each start at most its end, each end at most
    the next start) gives a tier of objects ordered in seconds in the same
    way: the rescaling is monotone, so no span is inverted and no two
    consecutive spans come to overlap. *)
Theorem meta_alignments_keeps_order (a : alignment) (segs : list segment)
  (os : list json) (m n r : Q) :
  py_num (n_model_frames a) = Some m -> py_num (n_audio_samples a) = Some n ->
  py_num (sampling_rate a) = Some r -> 0 <= m -> 0 <= n -> 0 <= r ->
  meta_alignments a segs = Ok (JList os) ->
  tier_ordered (map seg_span segs) -> tier_ordered (map obj_span os).
Proof.
  intros Hm Hn Hr Pm Pn Pr E Ho. unfold meta_alignments in E.
  destruct (mapM (meta_segment a) segs) as [os'|e] eqn:Eos; cbn [bind] in E;
    [|discriminate].
  injection E as <-.
  rewrite (meta_spans a m n r segs os' Hm Hn Hr Eos).
  apply (tier_ordered_map (fun x => x * n / r / m)); [|exact Ho].
  intros x y Hxy. unfold Qdiv.
  apply Qmult_le_compat_r; [|apply Qinv_le_0_compat, Pm].
  apply Qmult_le_compat_r; [|apply Qinv_le_0_compat, Pr].
  apply Qmult_le_compat_r; assumption.
Qed.

(** Witness of X8: the words of the example alignment, 0-2 and 2-5 frames. *)
Lemma meta_alignments_keeps_order_witness :
  exists os, meta_alignments ex_alignment ex_words = Ok (JList os) /\
    tier_ordered (map obj_span os).
Proof.
  eexists. split; [reflexivity|].
  apply (meta_alignments_keeps_order ex_alignment ex_words _ 10 160000 16000);
    try reflexivity; try (vm_compute; discriminate).
  simpl. repeat split; vm_compute; discriminate.
Defined.

(** ** Decode errors *)

Section DecodeErrors.

Lemma decode_segments_key (a : alignment) (r : json) (k : string) (l : list segment) :
  decode_segments a r k = Ok l -> exists v, py_getitem r k = Ok v.
Proof.
  unfold decode_segments. destruct (py_getitem r k) as [v|e]; cbn [bind];
    [eauto | discriminate].
Qed.

Lemma decode_record_keys (r : json) (b : alignment) :
  decode_record r = Ok b ->
  forall k, In k (scalar_keys ++ collection_keys) -> exists v, py_getitem r k = Ok v.
Proof.
  intros E k Hk. unfold decode_record in E.
  split_ok E "id". split_ok E "recognised". split_ok E "n_model_frames".
  split_ok E "n_audio_samples". split_ok E "sampling_rate".
  split_ok E "partition_score".
  split_ok E "chars_cleaned". split_ok E "chars".
  split_ok E "words_cleaned". split_ok E "words".
  simpl in Hk.
  repeat (destruct Hk as [<-|Hk];
          [first [eexists; eassumption | eapply decode_segments_key; eassumption]|]).
  contradiction.
Qed.

Lemma getitem_obj_error (kvs : list (string * json)) (k : string) (e : exn) :
  py_getitem (JObj kvs) k = Error e -> e = KeyError k.
Proof.
  unfold py_getitem. destruct (dict_lookup kvs k); [discriminate|].
  intros H. injection H as <-. reflexivity.
Qed.

Lemma seconds_to_model_frames_num (a : alignment) (v : json) :
  is_degenerate a = false -> num_b (n_model_frames a) = true ->
  num_b (n_audio_samples a) = true -> num_b (sampling_rate a) = true ->
  num_b v = true -> exists w, seconds_to_model_frames a v = Ok w.
Proof.
  intros Hd Hm Hn Hr Hv. unfold seconds_to_model_frames.
  rewrite Hd, (num_b_some _ Hv), (num_b_some _ Hm), (num_b_some _ Hr),
    (num_b_some _ Hn).
  eauto.
Qed.

End DecodeErrors.

(** X9: [read_alignment] never substitutes a default for a documented key:
    a record lacking any of id, recognised, n_model_frames, n_audio_samples,
    sampling_rate, partition_score, chars_cleaned, chars, words_cleaned or
    words is rejected with an exception. *)
Theorem decode_missing_key_fails (r : json) (k : string) :
  In k (scalar_keys ++ collection_keys) -> py_getitem r k = Error (KeyError k) ->
  exists e, decode_record r = Error e.
Proof.
  intros Hk Hmiss. destruct (decode_record r) as [b|e] eqn:E; [|eauto].
  destruct (decode_record_keys r b E k Hk) as [v Hv]. congruence.
Qed.

(** A conforming record without "words_cleaned". *)
Definition ex_record_no_words_cleaned : json :=
  JObj [("id", JStr "x.mp3"); ("recognised", JStr "a");
        ("n_model_frames", JNum 10); ("n_audio_samples", JNum 16000);
        ("sampling_rate", JNum 16000); ("partition_score", JNum 0);
        ("chars_cleaned", JList []); ("chars", JList [ex_segment_object]);
        ("words", JList [])].

(** Witness of X9: the record without "words_cleaned". *)
Lemma decode_missing_key_fails_witness :
  exists e, decode_record ex_record_no_words_cleaned = Error e.
Proof.
  apply (decode_missing_key_fails ex_record_no_words_cleaned "words_cleaned");
    [simpl; tauto | reflexivity].
Defined.

(** X10: what [read_alignment] makes of the value [v] of a collection key:
    a list is decoded item by item; an empty dict or an empty string gives
    an empty collection; a non-empty dict or string (iterated over its keys
    or characters) and any other value are rejected with TypeError. *)
Theorem decode_segments_value (a : alignment) (r : json) (k : string) (v : json) :
  py_getitem r k = Ok v ->
  decode_segments a r k =
  match v with
  | JList l => mapM (dict_to_segment a) l
  | JObj [] | JStr EmptyString => Ok []
  | _ => Error TypeError
  end.
Proof.
  intros H. unfold decode_segments. rewrite H. cbn [bind].
  destruct v as [| | |s|l|kvs]; try reflexivity.
  - destruct s; reflexivity.
  - destruct kvs as [|[k0 v0] kvs]; reflexivity.
Qed.

(** Witness of X10: a collection given as the string "ab". *)
Lemma decode_segments_value_witness :
  decode_segments ex_alignment (JObj [("chars", JStr "ab")]) "chars" = Error TypeError.
Proof.
  rewrite (decode_segments_value ex_alignment _ "chars" (JStr "ab")) by reflexivity.
  reflexivity.
Defined.

(** X11: for an alignment whose n_model_frames, n_audio_samples and
    sampling_rate are non-zero numbers, decoding a segment object whose
    start and end, where present, are numbers fails with [KeyError k] for
    the first key [k] missing in the order start, end, label, score, and
    succeeds when none is missing. *)
Theorem dict_to_segment_missing (a : alignment) (kvs : list (string * json)) :
  is_degenerate a = false -> num_b (n_model_frames a) = true ->
  num_b (n_audio_samples a) = true -> num_b (sampling_rate a) = true ->
  (forall k v, In k ["start"; "end"] -> py_getitem (JObj kvs) k = Ok v -> num_b v = true) ->
  match first_missing (JObj kvs) segment_keys with
  | Some k => dict_to_segment a (JObj kvs) = Error (KeyError k)
  | None => exists t, dict_to_segment a (JObj kvs) = Ok t
  end.
Proof.
  intros Hd Hm Hn Hr Hnum. cbn [first_missing segment_keys].
  unfold dict_to_segment.
  destruct (py_getitem (JObj kvs) "start") as [vs|e] eqn:Es; cbn [bind];
    [|rewrite (getitem_obj_error _ _ _ Es); reflexivity].
  destruct (seconds_to_model_frames_num a vs Hd Hm Hn Hr
              (Hnum "start" vs ltac:(simpl; auto) Es)) as [ws ->].
  cbn [bind].
  destruct (py_getitem (JObj kvs) "end") as [ve|e] eqn:Ee; cbn [bind];
    [|rewrite (getitem_obj_error _ _ _ Ee); reflexivity].
  destruct (seconds_to_model_frames_num a ve Hd Hm Hn Hr
              (Hnum "end" ve ltac:(simpl; auto) Ee)) as [we ->].
  cbn [bind].
  destruct (py_getitem (JObj kvs) "label") as [vl|e] eqn:El; cbn [bind];
    [|rewrite (getitem_obj_error _ _ _ El); reflexivity].
  destruct (py_getitem (JObj kvs) "score") as [vc|e] eqn:Ec; cbn [bind];
    [eauto | rewrite (getitem_obj_error _ _ _ Ec); reflexivity].
Qed.

(** Witness of X11: a segment object without "label". *)
Lemma dict_to_segment_missing_witness :
  dict_to_segment ex_alignment
    (JObj [("start", JNum 0); ("end", JNum 1); ("score", JNum 1)])
  = Error (KeyError "label").
Proof.
  exact (dict_to_segment_missing ex_alignment
           [("start", JNum 0); ("end", JNum 1); ("score", JNum 1)]
           eq_refl eq_refl eq_refl eq_refl
           ltac:(intros k v Hk Hv; simpl in Hk;
                 destruct Hk as [<-|[<-|[]]]; injection Hv as <-; reflexivity)).
Defined.

(** X12: decoding a segment item that is not a dict fails with TypeError,
    and for degenerate metadata an item with a start fails with
    DegenerateAlignment whatever else it lacks: the rescaling of start
    comes before the lookup of end, label and score. *)
Theorem dict_to_segment_other_errors :
  (forall a d, (forall kvs, d <> JObj kvs) -> dict_to_segment a d = Error TypeError) /\
  (forall a d v, is_degenerate a = true -> py_getitem d "start" = Ok v ->
     dict_to_segment a d = Error DegenerateAlignment).
Proof.
  split.
  - intros a d Hd. destruct d as [| | | | |kvs]; try reflexivity.
    exfalso. apply (Hd kvs). reflexivity.
  - intros a d v Hdeg Hs. unfold dict_to_segment. rewrite Hs. cbn [bind].
    unfold seconds_to_model_frames. rewrite Hdeg. reflexivity.
Qed.

(** Witness of X12: a number as segment item, and a start-only object
    under degenerate metadata. *)
Lemma dict_to_segment_other_errors_witness :
  dict_to_segment ex_alignment (JNum 3) = Error TypeError /\
  dict_to_segment ex_degenerate_empty (JObj [("start", JNum 0)]) = Error DegenerateAlignment.
Proof.
  split.
  - apply (proj1 dict_to_segment_other_errors). discriminate.
  - apply (proj2 dict_to_segment_other_errors _ _ (JNum 0)); reflexivity.
Defined.



(** ** utils.load_config *)



(** X15: a config built by [load_config] carries the k_shingles and
    local_files_only arguments unchanged, and its cache directory is the
    default [CACHE_DIR_DEFAULT] when the cache_dir argument is None or the
    empty string, and the argument itself when it is a non-empty string. *)
Theorem load_config_cache_dir (D cfg : json) (model : string) (k lf c : json)
  (conf : config) :
  load_config D cfg model k lf c = Ok conf ->
  k_shingles conf = k /\ local_files_only conf = lf /\
  (c = JNull \/ c = JStr "" -> cache_dir conf = D) /\
  (forall s, c = JStr s -> s <> "" -> cache_dir conf = c).
Proof.
  unfold load_config. intros H.
  destruct (py_getitem cfg model) as [e1|x]; cbn [bind] in H; [|discriminate H].
  destruct (py_getitem e1 "model"); cbn [bind] in H; [|discriminate H].
  destruct (py_getitem e1 "pin"); cbn [bind] in H; [|discriminate H].
  destruct (py_getitem e1 "sampling_rate"); cbn [bind] in H; [|discriminate H].
  destruct (py_getitem e1 "language"); cbn [bind] in H; [|discriminate H].
  injection H as <-. simpl.
  split; [reflexivity|]. split; [reflexivity|]. split.
  - intros [-> | ->]; reflexivity.
  - intros s -> Hs. simpl. apply String.eqb_neq in Hs. rewrite Hs. reflexivity.
Qed.

(** Witness of X15: the entry "english" with cache_dir "". *)
Lemma load_config_cache_dir_witness :
  exists conf,
    load_config (JStr "/cache") ex_models_cfg "english" (JNum 5) (JBool false) (JStr "")
      = Ok conf /\ cache_dir conf = JStr "/cache".
Proof.
  eexists. split; [reflexivity|].
  apply (load_config_cache_dir (JStr "/cache") ex_models_cfg "english" (JNum 5)
           (JBool false) (JStr "")); [reflexivity | right; reflexivity].
Defined.

(** ** The slice arithmetic of utils.load_slice *)

Section Slice.

Lemma inject_Z_nonzero (z : Z) : z <> 0%Z -> ~ (inject_Z z == 0).
Proof. intros Hz E. apply Hz. apply (proj1 (inject_Z_injective z 0)), E. Qed.

Lemma seconds_per_frame_zero (sr nf ns : Z) :
  sr <> 0%Z -> nf <> 0%Z ->
  (inject_Z ns / inject_Z sr / inject_Z nf == 0 <-> ns = 0%Z).
Proof.
  intros Hsr Hnf.
  pose proof (inject_Z_nonzero _ Hsr) as Qsr.
  pose proof (inject_Z_nonzero _ Hnf) as Qnf.
  split.
  - intros H.
    assert (E : inject_Z ns ==
                (inject_Z ns / inject_Z sr / inject_Z nf) * inject_Z nf * inject_Z sr)
      by (field; auto).
    rewrite H in E. apply (proj1 (inject_Z_injective ns 0)).
    rewrite E. reflexivity.
  - intros ->. field. auto.
Qed.


End Slice.

(** X16: [load_slice] raises ZeroDivisionError exactly when the sample
    rate, the frame count or the number of loaded samples is zero. *)
Theorem load_slice_window_none (sr nf ns : Z) (s e : Q) :
  load_slice_window sr nf ns s e = None <-> (sr = 0 \/ nf = 0 \/ ns = 0)%Z.
Proof.
  unfold load_slice_window.
  destruct (Z.eqb_spec sr 0) as [Hsr|Hsr]; [split; auto; discriminate|].
  destruct (Z.eqb_spec nf 0) as [Hnf|Hnf]; [split; auto; discriminate|].
  destruct (Qeq_bool (inject_Z ns / inject_Z sr / inject_Z nf) 0) eqn:Ez.
  - apply Qeq_bool_iff, (seconds_per_frame_zero sr nf ns Hsr Hnf) in Ez.
    split; auto.
  - split; [discriminate|].
    intros [H|[H|H]]; try contradiction.
    apply (seconds_per_frame_zero sr nf ns Hsr Hnf), Qeq_bool_iff in H. congruence.
Qed.

(** Witness of X16: an empty recording at 16000 Hz. *)
Lemma load_slice_window_none_witness : load_slice_window 16000 0 0 0 1 = None.
Proof. apply (proj2 (load_slice_window_none 16000 0 0 0 1)). auto. Defined.





(** ** Encode errors *)

Section EncodeErrors.

Lemma model_frames_to_seconds_type_error (a : alignment) (x : json) :
  is_degenerate a = false -> num_b x = false ->
  model_frames_to_seconds a x = Error TypeError.
Proof.
  intros Hd Hx. unfold model_frames_to_seconds. rewrite Hd.
  unfold num_b in Hx. destruct (py_num x); [discriminate | reflexivity].
Qed.

Lemma meta_alignments_typed (a : alignment) (segs : list segment) :
  is_degenerate a = false ->
  num_b (n_model_frames a) = true -> num_b (n_audio_samples a) = true ->
  num_b (sampling_rate a) = true ->
  meta_alignments a segs =
  if forallb seg_numeric segs then Ok (JList (map (encoded_segment_spec a) segs))
  else Error TypeError.
Proof.
  intros Hd Hm Hn Hr. unfold meta_alignments.
  assert (H : mapM (meta_segment a) segs =
              if forallb seg_numeric segs then Ok (map (encoded_segment_spec a) segs)
              else Error TypeError).
  { induction segs as [|sg segs IH]; [reflexivity|].
    cbn [mapM forallb map]. rewrite IH. unfold meta_segment.
    change (seg_numeric sg) with (num_b (start sg) && num_b (end_ sg)).
    destruct (num_b (start sg)) eqn:Hs;
      [rewrite (frames_to_seconds_ok a _ Hd Hm Hn Hr Hs)
      | rewrite (model_frames_to_seconds_type_error a _ Hd Hs); reflexivity].
    destruct (num_b (end_ sg)) eqn:He;
      [rewrite (frames_to_seconds_ok a _ Hd Hm Hn Hr He)
      | rewrite (model_frames_to_seconds_type_error a _ Hd He); reflexivity].
    cbn [bind andb]. destruct (forallb seg_numeric segs); reflexivity. }
  rewrite H. destruct (forallb seg_numeric segs); reflexivity.
Qed.

End EncodeErrors.

(** X19: for an alignment whose n_model_frames, n_audio_samples and
    sampling_rate are non-zero numbers, [alignment_meta] (hence
    [write_alignment], before anything is written) fails with TypeError
    exactly when some segment of the four collections has a non-numeric
    start or end, and returns the record of Section 4.2 otherwise. *)
Theorem alignment_meta_type_error (a : alignment) :
  is_degenerate a = false ->
  num_b (n_model_frames a) = true -> num_b (n_audio_samples a) = true ->
  num_b (sampling_rate a) = true ->
  alignment_meta a = if well_typed a then Ok (encoded_spec a) else Error TypeError.
Proof.
  intros Hd Hm Hn Hr. unfold alignment_meta, well_typed.
  rewrite Hm, Hn, Hr. cbn [andb].
  rewrite !(meta_alignments_typed a _ Hd Hm Hn Hr).
  destruct (forallb seg_numeric (chars a)), (forallb seg_numeric (chars_cleaned a)),
    (forallb seg_numeric (words a)), (forallb seg_numeric (words_cleaned a));
    reflexivity.
Qed.

(** Witness of X19: the example alignment with a word ending at "5". *)
Lemma alignment_meta_type_error_witness :
  alignment_meta
    (mkAlignment (JStr "audio/one.mp3") [] (JStr "ab") [] [] [] [] []
       [mkSegment (JStr "ab") (JNum 0) (JStr "5") (JNum 1)]
       (JNum 10) (JNum 160000) (JNum 16000) (JNum 0))
  = Error TypeError.
Proof. rewrite alignment_meta_type_error; reflexivity. Defined.

(** ** The location as a string *)

Section PathStrings.

Lemma str_app_assoc (a b c : string) : (a ++ b) ++ c = a ++ (b ++ c).
Proof. induction a as [|x a IH]; simpl; [reflexivity | rewrite IH; reflexivity]. Qed.

Lemma join_slash_cons (h : string) (t : list string) :
  t <> [] -> join_slash (h :: t) = h ++ String slash (join_slash t).
Proof. destruct t; [contradiction | reflexivity]. Qed.

Lemma join_slash_app (l1 l2 : list string) :
  l1 <> [] -> l2 <> [] ->
  join_slash (l1 ++ l2) = join_slash l1 ++ String slash (join_slash l2).
Proof.
  intros H1 H2. induction l1 as [|h t IH]; [contradiction|].
  destruct t as [|h' t].
  - simpl. apply join_slash_cons, H2.
  - rewrite <- app_comm_cons, join_slash_cons by (destruct t; discriminate).
    rewrite IH by discriminate.
    rewrite (join_slash_cons h (h' :: t)) by discriminate.
    rewrite str_app_assoc. reflexivity.
Qed.

Lemma join_slash_last_suffix (l : list string) (x : string) :
  l <> [] -> join_slash (removelast l ++ [last l "" ++ x]) = join_slash l ++ x.
Proof.
  intros Hl. induction l as [|h t IH]; [contradiction|].
  destruct t as [|h' t]; [reflexivity|].
  change (removelast (h :: h' :: t)) with (h :: removelast (h' :: t)).
  change (last (h :: h' :: t) "") with (last (h' :: t) "").
  rewrite <- app_comm_cons.
  rewrite join_slash_cons by (destruct (removelast (h' :: t)); discriminate).
  rewrite IH by discriminate.
  rewrite (join_slash_cons h (h' :: t)) by discriminate.
  rewrite str_app_assoc. reflexivity.
Qed.

Lemma path_str_nonnil (an : string) (l : list string) :
  l <> [] -> path_str (mkPath an l) = an ++ join_slash l.
Proof. destruct l; [contradiction | reflexivity]. Qed.

End PathStrings.

(** X20: for an id in normal form, [str] of its location is the root, a
    "/", the id and ".json" when the root has components (e.g. "out" and
    "audio/one.mp3" give "out/audio/one.mp3.json"), and the anchor of the
    root followed by the id and ".json" when it has none (the roots "" and
    "." give "audio/one.mp3.json", the root "/" gives "/audio/one.mp3.json"). *)
Theorem alignment_filename_str (root : pypath) (i : string) :
  normal_id i = true ->
  path_str (alignment_filename root i) =
  match parts root with
  | [] => anchor root ++ i ++ ".json"
  | _ => path_str root ++ "/" ++ i ++ ".json"
  end.
Proof.
  intros Hi. rewrite (alignment_filename_normal root i Hi).
  pose proof (split_slash_nonnil i) as Hn.
  assert (Hl : forall l : list string,
             (l ++ [(last (split_slash i) "" ++ ".json")%string])%list <> []).
  { intros l E. apply app_eq_nil in E as [_ E]. discriminate. }
  rewrite path_str_nonnil by apply Hl.
  rewrite <- app_assoc.
  destruct (parts root) as [|p ps] eqn:Er.
  - rewrite app_nil_l, join_slash_last_suffix, join_split_slash by exact Hn.
    reflexivity.
  - rewrite join_slash_app by (discriminate || apply Hl).
    rewrite join_slash_last_suffix, join_split_slash by exact Hn.
    unfold path_str. rewrite Er. rewrite str_app_assoc. reflexivity.
Qed.

(** Witness of X20: "audio/one.mp3" under "out" and under ".". *)
Lemma alignment_filename_str_witness :
  path_str (alignment_filename (parse_path "out") "audio/one.mp3") = "out/audio/one.mp3.json" /\
  path_str (alignment_filename (parse_path ".") "audio/one.mp3") = "audio/one.mp3.json".
Proof.
  split; rewrite alignment_filename_str; reflexivity.
Defined.
